(** * Verification of the /squareme handler (src/http_server.py)

    The handler, in full:
<<
    @app.route("/squareme")
    def get():
        try:
            val = request.args.get('num')
            val = int(val, 10)
            delay = 50 + random.randint(50, 200)
            time.sleep(delay / 1000)
            if random.randint(0, 10) == 0:
                return jsonify({"error": "something went wrong"})
            else:
                return jsonify({"msg": val * val, "ttl(ms)": TTL + delay})
        except Exception as e:
            print(e)
            pass
>>
    The model is a state-and-exception monad.  The state holds the values the
    random source will return (an oracle: [random.randint(a, b)] may return
    any integer of [a..b]) and the trace of observable effects (draws,
    sleeps, prints).  Python's [int(s, 10)] and the JSON serialisation of
    [jsonify] are modelled after CPython, including the interpreter's limit on
    the number of decimal digits in int/str conversions
    ([sys.get_int_max_str_digits()], 4300 by default since CPython 3.11,
    0 meaning "no limit", the behaviour of earlier versions).

    In the model of the handler, strings are Rocq strings, a character
    read as the code point 0..255 (Latin-1).  [int(s, 10)] on a Python
    [str] of any code points is modelled separately ([PyUnicode], after
    CPython's [PyLong_FromUnicodeObject], over the interpreter's Unicode
    database); on strings of 0..255 it agrees with the handler's parse
    ([PyUnicodeFacts.handler_parse_agrees]). *)

From Stdlib Require Import ZArith QArith String Ascii List Bool Lia.
Import ListNotations.

Set Warnings "-register-all".
Open Scope Z_scope.

(** ** Python exceptions raised on the paths of the handler *)

Inductive exn : Type :=
  (** [int(None, 10)]: "int() can't convert non-string with explicit base" *)
  | TypeError_int_non_string
  (** [int(s, 10)]: "invalid literal for int() with base 10: ..." *)
  | ValueError_invalid_literal (s : string)
  (** [int(s, 10)]: "Exceeds the limit (...) for integer string conversion" *)
  | ValueError_str_to_int_limit (limit : Z) (digits : Z)
  (** [str(n)] / [json.dumps]: the int has too many decimal digits *)
  | ValueError_int_to_str_limit (limit : Z).

(** An evaluation ends normally with a value or with an exception. *)
Inductive outcome (A : Type) : Type :=
  | Normal (a : A)
  | Raised (e : exn).
Arguments Normal {A} a.
Arguments Raised {A} e.

(** ** Python's [int(s, 10)] on a string (CPython [PyLong_FromString]) *)

Module PyInt.

(** [Py_ISSPACE] on ASCII: tab, LF, VT, FF, CR and space.  For a string
    with non-ASCII characters, [_PyUnicode_TransformDecimalAndSpaceToASCII]
    first maps every Unicode space to ' ': in 0..255 these are U+0085 and
    U+00A0; every other non-ASCII character of 0..255 is not a decimal digit
    and makes the literal invalid. *)
Definition is_space (c : ascii) : bool :=
  let n := nat_of_ascii c in
  ((9 <=? n)%nat && (n <=? 13)%nat) || (n =? 32)%nat
  || (n =? 133)%nat || (n =? 160)%nat.

(** [_PyLong_DigitValue[c] < 10]: the ASCII digits. *)
Definition is_digit (c : ascii) : bool :=
  let n := nat_of_ascii c in (48 <=? n)%nat && (n <=? 57)%nat.

Definition digit_value (c : ascii) : Z := Z.of_nat (nat_of_ascii c) - 48.

Definition is_underscore (c : ascii) : bool := Ascii.eqb c "_"%char.

(** Skipping leading spaces: [while (Py_ISSPACE( *str)) str++;]. *)
Fixpoint skip_space (l : list ascii) : list ascii :=
  match l with
  | c :: l' => if is_space c then skip_space l' else l
  | [] => []
  end.

(** The optional sign: one '+' or one '-'. *)
Definition read_sign (l : list ascii) : Z * list ascii :=
  match l with
  | c :: l' =>
      if Ascii.eqb c "+"%char then (1, l')
      else if Ascii.eqb c "-"%char then (-1, l')
      else (1, l)
  | [] => (1, l)
  end.

(** The digit loop of [long_from_string_base]: digits, with single
    underscores between them.  [prev_us] says that the previous character
    was an underscore; the loop starts with it set, since a literal may not
    start with an underscore.  The result is the value read, the number of
    digits and the rest of the input, or [None] on a syntax error (a doubled,
    leading or trailing underscore, or no digit at all). *)
Fixpoint scan_digits (l : list ascii) (acc : Z) (ndigits : Z) (prev_us : bool)
  : option (Z * Z * list ascii) :=
  match l with
  | c :: l' =>
      if is_digit c then scan_digits l' (acc * 10 + digit_value c) (ndigits + 1) false
      else if is_underscore c then
        if prev_us then None else scan_digits l' acc ndigits true
      else if prev_us then None else Some (acc, ndigits, l)
  | [] => if prev_us then None else Some (acc, ndigits, [])
  end.

Section Limit.

(** [sys.get_int_max_str_digits()]; 0 disables the check.  CPython refuses
    values in 1..639, so a positive limit is at least 640, above the
    threshold under which the check is skipped. *)
Variable max_str_digits : Z.

Definition exceeds_limit (digits : Z) : bool :=
  (0 <? max_str_digits) && (max_str_digits <? digits).

(** [int(s, 10)] for a string [s]. *)
Definition int_base10 (s : string) : outcome Z :=
  let l := skip_space (list_ascii_of_string s) in
  let '(sign, l) := read_sign l in
  match scan_digits l 0 0 true with
  | None => Raised (ValueError_invalid_literal s)
  | Some (v, digits, rest) =>
      if exceeds_limit digits then Raised (ValueError_str_to_int_limit max_str_digits digits)
      else match skip_space rest with
           | [] => Normal (sign * v)
           | _ :: _ => Raised (ValueError_invalid_literal s)
           end
  end.

(** [int(val, 10)] where [val = request.args.get('num')] is [None] when the
    parameter is missing. *)
Definition int_arg (val : option string) : outcome Z :=
  match val with
  | None => Raised TypeError_int_non_string
  | Some s => int_base10 s
  end.

End Limit.

End PyInt.

(** ** JSON values and [flask.jsonify] *)

(** The values the handler passes to [jsonify]: ints, strings and dicts
    (as association lists in source order). *)
Inductive json : Type :=
  | JInt (z : Z)
  | JStr (s : string)
  | JObj (fields : list (string * json)).

(** The response object of [jsonify]: status 200, mimetype
    application/json, the serialised value as body. *)
Record response : Type := mk_response {
  status : Z;
  mimetype : string;
  body : json
}.

(** ** The effect monad *)

Inductive event : Type :=
  (** [random.randint(lo, hi)] returned [r] *)
  | EvRandint (lo hi r : Z)
  (** [time.sleep(secs)] *)
  | EvSleep (secs : Q)
  (** [print(e)] *)
  | EvPrint (e : exn).

Record state : Type := mk_state {
  draws : list Z;
  trace : list event
}.

(** [None]: the draws given are not values [random.randint] can return, so
    the run is not a behaviour of the program. *)
Definition M (A : Type) : Type := state -> option (outcome A * state).

Definition ret {A} (a : A) : M A := fun s => Some (Normal a, s).

Definition bind {A B} (m : M A) (k : A -> M B) : M B :=
  fun s =>
    match m s with
    | Some (Normal a, s') => k a s'
    | Some (Raised e, s') => Some (Raised e, s')
    | None => None
    end.

Notation "x <- m ;; k" := (bind m (fun x => k))
  (at level 61, m at next level, right associativity).

Definition raise {A} (e : exn) : M A := fun s => Some (Raised e, s).

(** A pure Python computation that may raise. *)
Definition lift {A} (o : outcome A) : M A := fun s => Some (o, s).

(** [try: m except Exception as e: h(e)] *)
Definition try_except {A} (m : M A) (h : exn -> M A) : M A :=
  fun s =>
    match m s with
    | Some (Raised e, s') => h e s'
    | r => r
    end.

Definition emit (ev : event) (s : state) : state :=
  mk_state (draws s) (trace s ++ [ev]).

(** [random.randint(lo, hi)]: the next value of the random source, which
    lies in [lo..hi]. *)
Definition randint (lo hi : Z) : M Z :=
  fun s =>
    match draws s with
    | r :: rs =>
        if (lo <=? r) && (r <=? hi)
        then Some (Normal r, mk_state rs (trace s ++ [EvRandint lo hi r]))
        else None
    | [] => None
    end.

Definition time_sleep (secs : Q) : M unit :=
  fun s => Some (Normal tt, emit (EvSleep secs) s).

Definition print (e : exn) : M unit :=
  fun s => Some (Normal tt, emit (EvPrint e) s).

Definition run {A} (m : M A) (ds : list Z) : option (outcome A * state) :=
  m (mk_state ds []).

Section Handler.

Variable max_str_digits : Z.

(** [json.dumps] writes an int with [str]/[repr], which raises when the int
    has more than [max_str_digits] decimal digits (when the limit is on):
    that is, when [|z| >= 10 ^ max_str_digits]. *)
Definition int_str_ok (z : Z) : bool :=
  negb (0 <? max_str_digits) || (Z.abs z <? 10 ^ max_str_digits).

Fixpoint serialisable (j : json) : bool :=
  match j with
  | JInt z => int_str_ok z
  | JStr _ => true
  | JObj fields =>
      (fix all (fs : list (string * json)) : bool :=
         match fs with
         | [] => true
         | (_, v) :: fs' => serialisable v && all fs'
         end) fields
  end.

(** [jsonify(obj)]: a response with status 200 and a JSON body, or the
    exception of the serialisation. *)
Definition jsonify (j : json) : M response :=
  if serialisable j
  then ret (mk_response 200 "application/json"%string j)
  else raise (ValueError_int_to_str_limit max_str_digits).

(** [TTL = 100]: time to live in ms *)
Definition TTL : Z := 100.

(** The view function [get] of the route /squareme; [num] is
    [request.args.get('num')].  The Python function returns a response or,
    from the exception handler, [None].  [delay / 1000] is Python's true
    division (a float of seconds); the model keeps the exact rational. *)
Definition get (num : option string) : M (option response) :=
  try_except
    (val <- lift (PyInt.int_arg max_str_digits num) ;;
     r <- randint 50 200 ;;
     let delay := 50 + r in
     _ <- time_sleep (Qmake delay 1000) ;;
     c <- randint 0 10 ;;
     if c =? 0 then
       resp <- jsonify (JObj [("error"%string, JStr "something went wrong"%string)]) ;;
       ret (Some resp)
     else
       resp <- jsonify (JObj [("msg"%string, JInt (val * val)); ("ttl(ms)"%string, JInt (TTL + delay))]) ;;
       ret (Some resp))
    (fun e => _ <- print e ;; ret None).

End Handler.

(** CPython's default [sys.get_int_max_str_digits()] since 3.11. *)
Definition default_max_str_digits : Z := 4300.

(** ** Definitions used by the statements *)

(** The two payload shapes of the handler. *)
Definition error_payload : json :=
  JObj [("error"%string, JStr "something went wrong"%string)].

Definition success_payload (msg ttl : Z) : json :=
  JObj [("msg"%string, JInt msg); ("ttl(ms)"%string, JInt ttl)].

Definition json_response (j : json) : response :=
  mk_response 200 "application/json"%string j.

(** The trace of a run past the parse: the delay draw, the sleep, the
    error draw. *)
Definition draws_trace (r1 r2 : Z) : list event :=
  [EvRandint 50 200 r1; EvSleep (Qmake (50 + r1) 1000); EvRandint 0 10 r2].

(** What a run of [get] on a parsed [n] comes to, written out case by case. *)
Definition get_parsed_run (max_str_digits n : Z) (ds : list Z)
  : option (outcome (option response) * state) :=
  match ds with
  | r1 :: r2 :: rest =>
      if (50 <=? r1) && (r1 <=? 200) then
        if (0 <=? r2) && (r2 <=? 10) then
          if r2 =? 0 then
            Some (Normal (Some (json_response error_payload)), mk_state rest (draws_trace r1 r2))
          else if serialisable max_str_digits (success_payload (n * n) (TTL + (50 + r1))) then
            Some (Normal (Some (json_response (success_payload (n * n) (TTL + (50 + r1))))),
                  mk_state rest (draws_trace r1 r2))
          else
            Some (Normal None,
                  mk_state rest (draws_trace r1 r2 ++ [EvPrint (ValueError_int_to_str_limit max_str_digits)]))
        else None
      else None
  | _ => None
  end.

(** The observable result of a run: outcome and trace. *)
Definition observed {A} (o : option (outcome A * state)) : option (outcome A * list event) :=
  option_map (fun p => (fst p, trace (snd p))) o.

(** ** A large input under CPython's default digit limit *)

Fixpoint zeros (k : nat) : string :=
  match k with
  | O => EmptyString
  | S k' => String "0"%char (zeros k')
  end.

(** "1" followed by 2150 zeros: 10 ^ 2150, 2151 digits, which [int] reads
    under the limit of 4300 digits, but whose square has 4301 digits. *)
Definition big_num : string := String "1"%char (zeros 2150).

(** The values [sys.set_int_max_str_digits] accepts: 0 (no limit) or at
    least 640. *)
Definition valid_limit (lim : Z) : Prop := lim = 0 \/ 640 <= lim.

(** ** The literals [int(s, 10)] accepts *)

Definition digit_step (acc : Z) (c : ascii) : Z := acc * 10 + PyInt.digit_value c.

(** The value of a list of decimal digits. *)
Definition decimal_value (ds : list ascii) : Z := fold_left digit_step ds 0.

(** [n] is [v] with the sign prefix [sg] (none, '+' or '-') applied. *)
Definition sign_prefix (sg : list ascii) (v n : Z) : Prop :=
  (sg = [] /\ n = v) \/ (sg = ["+"%char] /\ n = v) \/ (sg = ["-"%char] /\ n = - v).

(** [digit_groups raw ds]: [raw] is the digits [ds], with single underscores
    allowed between two digits. *)
Inductive digit_groups : list ascii -> list ascii -> Prop :=
  | dg_one (c : ascii) :
      PyInt.is_digit c = true -> digit_groups [c] [c]
  | dg_cons (c : ascii) (raw ds : list ascii) :
      PyInt.is_digit c = true -> digit_groups raw ds -> digit_groups (c :: raw) (c :: ds)
  | dg_us (c : ascii) (raw ds : list ascii) :
      PyInt.is_digit c = true -> digit_groups raw ds ->
      digit_groups (c :: "_"%char :: raw) (c :: ds).

(** The literals of Python's [int(s, 10)]: spaces, an optional sign, digits
    with single underscores between them, spaces; at most [lim] digits when
    the limit is on. *)
Definition py_int_literal (lim : Z) (s : string) (n : Z) : Prop :=
  exists ws1 sg raw ds ws2,
    list_ascii_of_string s = ws1 ++ sg ++ raw ++ ws2 /\
    forallb PyInt.is_space ws1 = true /\ forallb PyInt.is_space ws2 = true /\
    digit_groups raw ds /\
    PyInt.exceeds_limit lim (Z.of_nat (length ds)) = false /\
    sign_prefix sg (decimal_value ds) n.

(** Where the digit loop stops: at the end, or before a character that is
    neither a digit nor an underscore. *)
Definition scan_stops (l : list ascii) : Prop :=
  match l with
  | [] => True
  | c :: _ => PyInt.is_digit c = false /\ PyInt.is_underscore c = false
  end.

(** The durations of the [time.sleep] calls of a trace, in order. *)
Fixpoint sleeps (tr : list event) : list Q :=
  match tr with
  | [] => []
  | EvSleep q :: tr' => q :: sleeps tr'
  | _ :: tr' => sleeps tr'
  end.

(** The exceptions printed in a trace, in order. *)
Fixpoint prints (tr : list event) : list exn :=
  match tr with
  | [] => []
  | EvPrint e :: tr' => e :: prints tr'
  | _ :: tr' => prints tr'
  end.

(** ** Python's [int(s, 10)] on a Python [str] (CPython [PyLong_FromUnicodeObject]) *)

(** A Python [str] is a sequence of code points.  For a [str], [int(s, 10)]
    first runs [_PyUnicode_TransformDecimalAndSpaceToASCII], which returns
    an ASCII string unchanged and otherwise rewrites each character:
<<
        if (ch < 127) out[i] = ch;
        else if (Py_UNICODE_ISSPACE(ch)) out[i] = ' ';
        else {
            int decimal = Py_UNICODE_TODECIMAL(ch);
            if (decimal < 0) { out[i] = '?'; out[i+1] = '\0'; ... break; }
            out[i] = '0' + decimal;
        }
>>
    then parses the result with [PyLong_FromString] and fails unless all of
    it was read.  The invalid-literal message of CPython shows the original
    string; the model's shows the rewritten one. *)
Module PyUnicode.

(** A code point below 128 as an ASCII character. *)
Definition ascii_of_code (c : Z) : ascii := ascii_of_nat (Z.to_nat c).

Section Db.

(** The interpreter's Unicode database, which depends on its Unicode
    version: [Py_UNICODE_ISSPACE] and [Py_UNICODE_TODECIMAL] ([None] for
    its -1). *)
Variable u_isspace : Z -> bool.
Variable u_todecimal : Z -> option Z.

(** The loop over the characters of a non-ASCII string. *)
Fixpoint transform_chars (s : list Z) : list ascii :=
  match s with
  | [] => []
  | c :: s' =>
      if c <? 127 then ascii_of_code c :: transform_chars s'
      else if u_isspace c then " "%char :: transform_chars s'
      else match u_todecimal c with
           | Some d => ascii_of_code (48 + d) :: transform_chars s'
           | None => ["?"%char]
           end
  end.

(** [_PyUnicode_TransformDecimalAndSpaceToASCII] *)
Definition transform (s : list Z) : list ascii :=
  if forallb (fun c => c <? 128) s then map ascii_of_code s
  else transform_chars s.

Section Limit.

Variable max_str_digits : Z.

(** [int(s, 10)] for a [str] [s]. *)
Definition int_base10 (s : list Z) : outcome Z :=
  PyInt.int_base10 max_str_digits (string_of_list_ascii (transform s)).

(** [int(val, 10)] where [val = request.args.get('num')]. *)
Definition int_arg (val : option (list Z)) : outcome Z :=
  match val with
  | None => Raised TypeError_int_non_string
  | Some s => int_base10 s
  end.

End Limit.

(** *** The literals, character by character *)

(** A space for [int]: tab, LF, VT, FF, CR, space, or a character from
    U+007F on that the database classes as a space. *)
Definition uspace (c : Z) : Prop :=
  (9 <= c <= 13 \/ c = 32) \/ (127 <= c /\ u_isspace c = true).

(** [c] is a decimal digit of value [d]: an ASCII digit, or a character
    from U+007F on that is not a space and has decimal value [d]. *)
Definition udigit (c d : Z) : Prop :=
  (48 <= c <= 57 /\ d = c - 48) \/
  (127 <= c /\ u_isspace c = false /\ u_todecimal c = Some d).

(** [udigit_groups raw ds]: [raw] is digits of values [ds], with single
    underscores (U+005F) allowed between two digits. *)
Inductive udigit_groups : list Z -> list Z -> Prop :=
  | ug_one (c d : Z) : udigit c d -> udigit_groups [c] [d]
  | ug_cons (c d : Z) (raw ds : list Z) :
      udigit c d -> udigit_groups raw ds -> udigit_groups (c :: raw) (d :: ds)
  | ug_us (c d : Z) (raw ds : list Z) :
      udigit c d -> udigit_groups raw ds -> udigit_groups (c :: 95 :: raw) (d :: ds).

(** The value of a list of digit values. *)
Definition digits_value (ds : list Z) : Z := fold_left (fun acc d => acc * 10 + d) ds 0.

(** [n] is [v] with the sign prefix [sg] (none, '+' or '-') applied. *)
Definition usign_prefix (sg : list Z) (v n : Z) : Prop :=
  (sg = [] /\ n = v) \/ (sg = [43] /\ n = v) \/ (sg = [45] /\ n = - v).

(** The literals of [int(s, 10)]: spaces, an optional sign, digits with
    single underscores between them, spaces; at most [lim] digits when the
    limit is on. *)
Definition int_literal (lim : Z) (s : list Z) (n : Z) : Prop :=
  exists ws1 sg raw ds ws2,
    s = ws1 ++ sg ++ raw ++ ws2 /\
    Forall uspace ws1 /\ Forall uspace ws2 /\
    udigit_groups raw ds /\
    PyInt.exceeds_limit lim (Z.of_nat (length ds)) = false /\
    usign_prefix sg (digits_value ds) n.

(** The grammar of the claim: an optional sign followed by decimal digits. *)
Definition signed_decimal (s : list Z) (n : Z) : Prop :=
  exists sg raw ds,
    s = sg ++ raw /\ ds <> [] /\ Forall2 udigit raw ds /\
    usign_prefix sg (digits_value ds) n.

(** The characters the rewriting keeps or maps to ASCII (the others become
    '?' and end the string). *)
Definition mapped (c : Z) : bool :=
  (c <? 127) || u_isspace c ||
  match u_todecimal c with Some _ => true | None => false end.

(** A code point and an ASCII character that [int] reads alike. *)
Definition same_class (c : Z) (a : ascii) : Prop :=
  (PyInt.is_space a = true <-> uspace c) /\
  (forall d, (PyInt.is_digit a = true /\ PyInt.digit_value a = d) <-> udigit c d) /\
  (Ascii.eqb a "+"%char = true <-> c = 43) /\
  (Ascii.eqb a "-"%char = true <-> c = 45) /\
  (PyInt.is_underscore a = true <-> c = 95).

End Db.

(** The code points of a string of the handler model (characters read as
    U+0000..U+00FF). *)
Definition codes (s : string) : list Z :=
  map (fun a => Z.of_nat (nat_of_ascii a)) (list_ascii_of_string s).

End PyUnicode.

(** The exceptions of [int(s, 10)] on a string. *)
Definition is_value_error (e : exn) : Prop :=
  match e with
  | ValueError_invalid_literal _ | ValueError_str_to_int_limit _ _
  | ValueError_int_to_str_limit _ => True
  | TypeError_int_non_string => False
  end.

(** An example database: the characters from U+007F on that CPython classes
    as spaces (U+0085, U+00A0, U+1680, U+2000..U+200A, U+2028, U+2029,
    U+202F, U+205F, U+3000), and the decimal digits of four scripts
    (Arabic-Indic U+0660, Extended Arabic-Indic U+06F0, Devanagari U+0966,
    Fullwidth U+FF10). *)
Definition sample_isspace (c : Z) : bool :=
  (c =? 133) || (c =? 160) || (c =? 5760) || ((8192 <=? c) && (c <=? 8202)) ||
  (c =? 8232) || (c =? 8233) || (c =? 8239) || (c =? 8287) || (c =? 12288).

Definition sample_todecimal (c : Z) : option Z :=
  if (1632 <=? c) && (c <=? 1641) then Some (c - 1632)
  else if (1776 <=? c) && (c <=? 1785) then Some (c - 1776)
  else if (2406 <=? c) && (c <=? 2415) then Some (c - 2406)
  else if (65296 <=? c) && (c <=? 65305) then Some (c - 65296)
  else None.

Section Examples.

Local Open Scope string_scope.

Example get_5 :
  run (get default_max_str_digits (Some "5")) [100; 3] =
  Some (Normal (Some (mk_response 200 "application/json"
                        (JObj [("msg", JInt 25); ("ttl(ms)", JInt 250)]))),
        mk_state [] [EvRandint 50 200 100; EvSleep (Qmake 150 1000); EvRandint 0 10 3]).
Proof. reflexivity. Qed.

Example int_examples :
  map (PyInt.int_base10 default_max_str_digits)
      [" -0042 "; "1_000"; "+7"; "1__0"; "_1"; "1_"; "abc"; ""; "-"; "- 5"; "5 x"]
  = [Normal (-42); Normal 1000; Normal 7; Raised (ValueError_invalid_literal "1__0");
     Raised (ValueError_invalid_literal "_1"); Raised (ValueError_invalid_literal "1_");
     Raised (ValueError_invalid_literal "abc"); Raised (ValueError_invalid_literal "");
     Raised (ValueError_invalid_literal "-"); Raised (ValueError_invalid_literal "- 5");
     Raised (ValueError_invalid_literal "5 x")].
Proof. reflexivity. Qed.

End Examples.

(** ** Results about the handler *)

Lemma get_raised_run (lim : Z) (num : option string) (e : exn) (ds : list Z) :
  PyInt.int_arg lim num = Raised e ->
  run (get lim num) ds = Some (Normal None, mk_state ds [EvPrint e]).
Proof.
  intros H. unfold run, get, try_except, bind, lift. rewrite H. reflexivity.
Qed.

Lemma get_normal_run (lim : Z) (num : option string) (n : Z) (ds : list Z) :
  PyInt.int_arg lim num = Normal n ->
  run (get lim num) ds = get_parsed_run lim n ds.
Proof.
  intros H. unfold run, get, try_except, bind, lift. rewrite H.
  unfold get_parsed_run, randint.
  destruct ds as [|r1 [|r2 rest]]; cbn [draws trace].
  - reflexivity.
  - destruct ((50 <=? r1) && (r1 <=? 200)); reflexivity.
  - destruct ((50 <=? r1) && (r1 <=? 200)); [|reflexivity].
    unfold time_sleep, emit; cbn [draws trace app].
    destruct ((0 <=? r2) && (r2 <=? 10)); [|reflexivity].
    cbn [draws trace app].
    destruct (r2 =? 0).
    + reflexivity.
    + unfold jsonify, print, emit, ret, raise.
      destruct (serialisable lim _); reflexivity.
Qed.

(** Case analysis on a run of [get] past the parse. *)
Ltac get_parsed_cases H :=
  unfold get_parsed_run in H;
  repeat match type of H with
         | context [match ?ds with _ => _ end] =>
             lazymatch type of ds with list Z => destruct ds end
         | context [if ?b then _ else _] => let E := fresh "E" in destruct b eqn:E
         end;
  try discriminate H.

Lemma some_pair_inj {A B : Type} (a a' : A) (b b' : B) :
  Some (a, b) = Some (a', b') -> a = a' /\ b = b'.
Proof. intros H. inversion H. auto. Qed.

Lemma normal_some_inj {A : Type} (a a' : A) :
  Normal (Some a) = Normal (Some a') -> a = a'.
Proof. intros H. inversion H. auto. Qed.

(** Splits an equation between two results of a run, without reducing
    the arithmetic in it. *)
Ltac run_inj H :=
  let Ho := fresh "Ho" in
  let Hs := fresh "Hs" in
  apply some_pair_inj in H; destruct H as [Ho Hs]; subst;
  try (apply normal_some_inj in Ho; subst).

(** Boolean comparisons of the hypotheses as propositions. *)
Ltac bool_facts :=
  repeat match goal with
         | E : (_ && _) = true |- _ => apply andb_prop in E; destruct E
         | E : (_ <=? _) = true |- _ => apply Z.leb_le in E
         | E : (_ =? _) = true |- _ => apply Z.eqb_eq in E
         | E : (_ =? _) = false |- _ => apply Z.eqb_neq in E
         end.

Lemma success_payload_inj (m t m' t' : Z) :
  success_payload m t = success_payload m' t' -> m = m' /\ t = t'.
Proof. unfold success_payload. intros H. injection H. auto. Qed.

Lemma error_not_success (m t : Z) : error_payload <> success_payload m t.
Proof. discriminate. Qed.

(** C1: whenever the handler returns the success payload for a parsed [n],
    its [msg] field is [n * n] (Python ints: no overflow, any sign). *)
Theorem get_msg_is_square (lim : Z) (num : option string) (n : Z) (ds : list Z)
    (resp : response) (st : state) (m t : Z) :
  PyInt.int_arg lim num = Normal n ->
  run (get lim num) ds = Some (Normal (Some resp), st) ->
  body resp = success_payload m t ->
  m = n * n.
Proof.
  intros Hp Hrun Hb. rewrite (get_normal_run lim num n ds Hp) in Hrun.
  get_parsed_cases Hrun; run_inj Hrun; cbn [body json_response] in Hb.
  - exfalso. exact (error_not_success m t Hb).
  - apply success_payload_inj in Hb. destruct Hb as [-> _]. reflexivity.
Qed.

(** C2: in a success response for a parsed input, [ttl(ms)] is
    [TTL + delay] with [TTL = 100] and [delay = 50 + r1], [r1] the first
    draw, of [50..200], the same delay the handler slept for; so
    [150 <= ttl(ms) <= 350]. *)
Theorem get_ttl_is_TTL_plus_delay (lim : Z) (num : option string) (n : Z) (ds : list Z)
    (resp : response) (st : state) (m t : Z) :
  PyInt.int_arg lim num = Normal n ->
  run (get lim num) ds = Some (Normal (Some resp), st) ->
  body resp = success_payload m t ->
  exists r1 r2 rest,
    ds = r1 :: r2 :: rest /\ 50 <= r1 <= 200 /\
    trace st = draws_trace r1 r2 /\
    TTL = 100 /\ t = TTL + (50 + r1) /\ 150 <= t <= 350.
Proof.
  intros Hp Hrun Hb. rewrite (get_normal_run lim num n ds Hp) in Hrun.
  get_parsed_cases Hrun; run_inj Hrun; cbn [body json_response] in Hb.
  - exfalso. exact (error_not_success m t Hb).
  - apply success_payload_inj in Hb. destruct Hb as [_ Ht]. subst t.
    bool_facts.
    eexists _, _, _. split; [reflexivity|]. split; [lia|]. split; [reflexivity|].
    unfold TTL. repeat split; lia.
Qed.

(** C4: when [int(val, 10)] raises (parameter missing, or not an integer
    literal), the exception is caught, printed, and the handler returns
    [None]: no JSON payload, no draw, no sleep. *)
Theorem get_parse_failure_returns_none (lim : Z) (num : option string) (e : exn) (ds : list Z) :
  PyInt.int_arg lim num = Raised e ->
  run (get lim num) ds = Some (Normal None, mk_state ds [EvPrint e]).
Proof. apply get_raised_run. Qed.

(** C6: on a parsed input, a run first draws [r1] from [50..200], then
    sleeps [(50 + r1) / 1000] seconds, then draws [r2] from [0..10], and only
    then builds the response; after the second draw at most one print (of a
    failed serialisation) happens, and an error payload comes after the full
    sleep with nothing after the second draw. *)
Theorem get_effect_order (lim : Z) (num : option string) (n : Z) (ds : list Z)
    (res : outcome (option response)) (st : state) :
  PyInt.int_arg lim num = Normal n ->
  run (get lim num) ds = Some (res, st) ->
  exists r1 r2 post,
    trace st = [EvRandint 50 200 r1; EvSleep (Qmake (50 + r1) 1000); EvRandint 0 10 r2] ++ post /\
    50 <= r1 <= 200 /\ 0 <= r2 <= 10 /\
    (post = [] \/ exists e, post = [EvPrint e]) /\
    (res = Normal (Some (json_response error_payload)) <-> r2 = 0) /\
    (r2 = 0 -> post = []).
Proof.
  intros Hp Hrun. rewrite (get_normal_run lim num n ds Hp) in Hrun.
  get_parsed_cases Hrun; run_inj Hrun;
    bool_facts;
    (eexists _, _, _; cbn [trace]; split; [reflexivity|]; split; [lia|]; split; [lia|]).
  - split; [left; reflexivity|]. split; [split; [intros _; assumption|intros; reflexivity]|].
    intros _. reflexivity.
  - split; [left; reflexivity|]. split; [|intros; contradiction].
    split; [|intros; contradiction]. intros Habs. discriminate Habs.
  - split; [right; eexists; reflexivity|]. split; [|intros; contradiction].
    split; [|intros; contradiction]. intros Habs. discriminate Habs.
Qed.

(** C9: the result of the handler (branch, body, ttl, and the effects it
    performs) is a function of [num] and the first two draws alone: runs
    that agree on these agree on everything observable. *)
Theorem get_deterministic (lim : Z) (num : option string) (r1 r2 : Z) (rest1 rest2 : list Z) :
  observed (run (get lim num) (r1 :: r2 :: rest1)) =
  observed (run (get lim num) (r1 :: r2 :: rest2)).
Proof.
  destruct (PyInt.int_arg lim num) as [n|e] eqn:Hp.
  - rewrite !(get_normal_run lim num n _ Hp). unfold get_parsed_run.
    destruct ((50 <=? r1) && (r1 <=? 200)); [|reflexivity].
    destruct ((0 <=? r2) && (r2 <=? 10)); [|reflexivity].
    destruct (r2 =? 0); [reflexivity|].
    destruct (serialisable lim _); reflexivity.
  - rewrite !(get_raised_run lim num e _ Hp). reflexivity.
Qed.

(** C10: in every success response, [150 + 50 <= ttl(ms) <= 350]. *)
Theorem get_ttl_range (lim : Z) (num : option string) (ds : list Z)
    (resp : response) (st : state) (m t : Z) :
  run (get lim num) ds = Some (Normal (Some resp), st) ->
  body resp = success_payload m t ->
  200 <= t <= 350.
Proof.
  intros Hrun Hb.
  destruct (PyInt.int_arg lim num) as [n|e] eqn:Hp.
  - rewrite (get_normal_run lim num n ds Hp) in Hrun.
    get_parsed_cases Hrun; run_inj Hrun; cbn [body json_response] in Hb.
    + exfalso. exact (error_not_success m t Hb).
    + apply success_payload_inj in Hb. destruct Hb as [_ Ht]. subst t.
      bool_facts. unfold TTL. lia.
  - rewrite (get_raised_run lim num e ds Hp) in Hrun. discriminate Hrun.
Qed.

Lemma big_num_parses :
  PyInt.int_arg default_max_str_digits (Some big_num) = Normal (10 ^ 2150).
Proof. vm_compute. reflexivity. Qed.

Lemma big_num_run :
  run (get default_max_str_digits (Some big_num)) [50; 1] =
  Some (Normal None,
        mk_state [] (draws_trace 50 1 ++ [EvPrint (ValueError_int_to_str_limit default_max_str_digits)])).
Proof. vm_compute. reflexivity. Qed.

Lemma int_str_ok_small (lim t : Z) :
  valid_limit lim -> 0 <= t <= 350 -> int_str_ok lim t = true.
Proof.
  intros [-> | Hl] Ht; unfold int_str_ok.
  - reflexivity.
  - apply orb_true_iff. right. apply Z.ltb_lt.
    assert (10 ^ 3 <= 10 ^ lim) by (apply Z.pow_le_mono_r; lia).
    rewrite Z.abs_eq by lia. lia.
Qed.

Lemma serialisable_success (lim m t : Z) :
  valid_limit lim -> 0 <= t <= 350 ->
  serialisable lim (success_payload m t) = int_str_ok lim m.
Proof.
  intros Hl Ht. cbn [serialisable success_payload].
  rewrite (int_str_ok_small lim t Hl Ht). rewrite !andb_true_r. reflexivity.
Qed.

Lemma get_parsed_run_in_range (lim n r1 r2 : Z) (rest : list Z) :
  valid_limit lim -> 50 <= r1 <= 200 -> 0 <= r2 <= 10 ->
  get_parsed_run lim n (r1 :: r2 :: rest) =
  if r2 =? 0 then
    Some (Normal (Some (json_response error_payload)), mk_state rest (draws_trace r1 r2))
  else if int_str_ok lim (n * n) then
    Some (Normal (Some (json_response (success_payload (n * n) (TTL + (50 + r1))))),
          mk_state rest (draws_trace r1 r2))
  else
    Some (Normal None,
          mk_state rest (draws_trace r1 r2 ++ [EvPrint (ValueError_int_to_str_limit lim)])).
Proof.
  intros Hl H1 H2. unfold get_parsed_run.
  replace ((50 <=? r1) && (r1 <=? 200)) with true
    by (symmetry; apply andb_true_iff; split; apply Z.leb_le; lia).
  replace ((0 <=? r2) && (r2 <=? 10)) with true
    by (symmetry; apply andb_true_iff; split; apply Z.leb_le; lia).
  rewrite (serialisable_success lim (n * n) (TTL + (50 + r1)) Hl) by (unfold TTL; lia).
  reflexivity.
Qed.

(** C3, counterexample: under CPython's default limit of 4300 digits the
    handler does not return the success payload for every parsed input with
    a non-zero second draw: on 10 ^ 2150 it returns [None]. *)
Lemma get_success_when_draw_nonzero_counterexample :
  ~ (forall (num : option string) (n r1 r2 : Z) (rest : list Z),
       PyInt.int_arg default_max_str_digits num = Normal n ->
       50 <= r1 <= 200 -> 0 <= r2 <= 10 -> r2 <> 0 ->
       exists st, run (get default_max_str_digits num) (r1 :: r2 :: rest) =
                  Some (Normal (Some (json_response (success_payload (n * n) (TTL + (50 + r1))))), st)).
Proof.
  intros H.
  destruct (H (Some big_num) (10 ^ 2150) 50 1 [] big_num_parses) as [st Hrun];
    try lia.
  rewrite big_num_run in Hrun. discriminate Hrun.
Qed.

(** C3 (amended): on a parsed input, with draws [r1] of [50..200] and
    [r2] of [0..10], the handler returns the error payload exactly when
    [r2 = 0].  Otherwise it returns the success payload when [n * n] is
    within the interpreter's int-to-string digit limit (always, when the
    limit is off); past the limit, [jsonify] raises a ValueError that is
    caught and printed, and the handler returns [None]. *)
Theorem get_error_iff_draw_zero (lim : Z) (num : option string) (n r1 r2 : Z) (rest : list Z) :
  valid_limit lim ->
  PyInt.int_arg lim num = Normal n ->
  50 <= r1 <= 200 -> 0 <= r2 <= 10 ->
  ((exists st, run (get lim num) (r1 :: r2 :: rest) =
               Some (Normal (Some (json_response error_payload)), st)) <-> r2 = 0) /\
  (r2 <> 0 -> int_str_ok lim (n * n) = true ->
   run (get lim num) (r1 :: r2 :: rest) =
   Some (Normal (Some (json_response (success_payload (n * n) (TTL + (50 + r1))))),
         mk_state rest (draws_trace r1 r2))) /\
  (r2 <> 0 -> int_str_ok lim (n * n) = false ->
   run (get lim num) (r1 :: r2 :: rest) =
   Some (Normal None,
         mk_state rest (draws_trace r1 r2 ++ [EvPrint (ValueError_int_to_str_limit lim)]))).
Proof.
  intros Hl Hp H1 H2.
  rewrite (get_normal_run lim num n _ Hp), (get_parsed_run_in_range lim n r1 r2 rest Hl H1 H2).
  destruct (r2 =? 0) eqn:E0.
  - apply Z.eqb_eq in E0. split; [split; [intros _; exact E0 | intros _; eexists; reflexivity]|].
    split; intros; contradiction.
  - apply Z.eqb_neq in E0. split; [|split].
    + split; [|intros; contradiction].
      intros [st Hrun]. destruct (int_str_ok lim (n * n)); run_inj Hrun; discriminate.
    + intros _ ->. reflexivity.
    + intros _ ->. reflexivity.
Qed.

(** C5, counterexample: under CPython's default limit of 4300 digits, a
    parsed input does not always get a JSON response with status 200: on
    10 ^ 2150 the handler returns [None] (which Flask turns into a 500). *)
Lemma get_always_json_200_counterexample :
  ~ (forall (num : option string) (n r1 r2 : Z) (rest : list Z),
       PyInt.int_arg default_max_str_digits num = Normal n ->
       50 <= r1 <= 200 -> 0 <= r2 <= 10 ->
       exists resp st,
         run (get default_max_str_digits num) (r1 :: r2 :: rest) = Some (Normal (Some resp), st) /\
         status resp = 200 /\ mimetype resp = "application/json"%string).
Proof.
  intros H.
  destruct (H (Some big_num) (10 ^ 2150) 50 1 [] big_num_parses) as [resp [st [Hrun _]]];
    try lia.
  rewrite big_num_run in Hrun. discriminate Hrun.
Qed.

(** C5 (amended): on a parsed input, the handler never lets an exception
    escape, and every response it returns, the simulated error as well as
    the success payload, is a JSON body with status 200; it returns no
    response exactly when the second draw is non-zero and [n * n] exceeds
    the interpreter's int-to-string digit limit. *)
Theorem get_responses_json_200 (lim : Z) (num : option string) (n r1 r2 : Z) (rest : list Z) :
  valid_limit lim ->
  PyInt.int_arg lim num = Normal n ->
  50 <= r1 <= 200 -> 0 <= r2 <= 10 ->
  exists res st,
    run (get lim num) (r1 :: r2 :: rest) = Some (Normal res, st) /\
    (forall resp, res = Some resp ->
       status resp = 200 /\ mimetype resp = "application/json"%string /\
       (body resp = error_payload \/ body resp = success_payload (n * n) (TTL + (50 + r1)))) /\
    (res = None <-> r2 <> 0 /\ int_str_ok lim (n * n) = false).
Proof.
  intros Hl Hp H1 H2.
  rewrite (get_normal_run lim num n _ Hp), (get_parsed_run_in_range lim n r1 r2 rest Hl H1 H2).
  destruct (r2 =? 0) eqn:E0; [|destruct (int_str_ok lim (n * n)) eqn:Eok];
    (eexists _, _; split; [reflexivity|]); bool_facts.
  - split.
    + intros resp Hr. injection Hr as <-. cbn. auto.
    + split; [discriminate|]. intros [Hne _]. contradiction.
  - split.
    + intros resp Hr. injection Hr as <-. cbn [status mimetype body json_response]. auto.
    + split; [discriminate|]. intros [_ Hf]. discriminate Hf.
  - split.
    + intros resp Hr. discriminate Hr.
    + split; [intros _; auto | reflexivity].
Qed.

Module PyIntFacts.
Import PyInt.

Lemma digit_char_facts (c : ascii) :
  is_digit c = true ->
  is_space c = false /\ is_underscore c = false /\
  Ascii.eqb c "+"%char = false /\ Ascii.eqb c "-"%char = false.
Proof.
  destruct c as [[] [] [] [] [] [] [] []]; vm_compute;
    intros H; first [discriminate H | repeat split].
Qed.

Lemma space_char_facts (c : ascii) :
  is_space c = true -> is_digit c = false /\ is_underscore c = false.
Proof.
  destruct c as [[] [] [] [] [] [] [] []]; vm_compute;
    intros H; first [discriminate H | repeat split].
Qed.

Lemma skip_space_app (ws l : list ascii) :
  forallb is_space ws = true ->
  (forall c r, l = c :: r -> is_space c = false) ->
  skip_space (ws ++ l) = l.
Proof.
  intros Hws Hl. induction ws as [|w ws IH]; cbn [app skip_space].
  - destruct l as [|c r]; [reflexivity|]. cbn [skip_space].
    rewrite (Hl c r eq_refl). reflexivity.
  - apply andb_prop in Hws. destruct Hws as [-> Hws]. apply IH, Hws.
Qed.

Lemma skip_space_split (l : list ascii) :
  exists ws, l = ws ++ skip_space l /\ forallb is_space ws = true /\
             (forall c r, skip_space l = c :: r -> is_space c = false).
Proof.
  induction l as [|c l IH]; cbn [skip_space].
  - exists []. split; [reflexivity|]. split; [reflexivity|]. discriminate.
  - destruct (is_space c) eqn:Hc.
    + destruct IH as [ws [Hl [Hws Hhd]]]. exists (c :: ws).
      split; [cbn [app]; rewrite <- Hl; reflexivity|].
      split; [cbn [forallb]; rewrite Hc; exact Hws|exact Hhd].
    + exists []. split; [reflexivity|]. split; [reflexivity|].
      intros c' r Heq. injection Heq as <- _. exact Hc.
Qed.

Lemma skip_space_nil (l : list ascii) : skip_space l = [] -> forallb is_space l = true.
Proof.
  intros H. destruct (skip_space_split l) as [ws [Hl [Hws _]]].
  rewrite H, app_nil_r in Hl. subst. exact Hws.
Qed.

Lemma skip_space_all (l : list ascii) : forallb is_space l = true -> skip_space l = [].
Proof.
  intros H. rewrite <- (app_nil_r l). apply skip_space_app; [exact H|discriminate].
Qed.

Lemma read_sign_inv (l l' : list ascii) (sign : Z) :
  read_sign l = (sign, l') ->
  exists sg, l = sg ++ l' /\
    ((sg = [] /\ sign = 1) \/ (sg = ["+"%char] /\ sign = 1) \/ (sg = ["-"%char] /\ sign = -1)).
Proof.
  destruct l as [|c r]; cbn [read_sign].
  - intros H. injection H as <- <-. exists []. auto.
  - destruct (Ascii.eqb c "+"%char) eqn:Hp; [|destruct (Ascii.eqb c "-"%char) eqn:Hm];
      intros H; injection H as <- <-.
    + apply Ascii.eqb_eq in Hp. subst. exists ["+"%char]. auto.
    + apply Ascii.eqb_eq in Hm. subst. exists ["-"%char]. auto.
    + exists []. auto.
Qed.

Lemma digit_groups_head (raw ds : list ascii) :
  digit_groups raw ds -> exists c r, raw = c :: r /\ is_digit c = true.
Proof. intros H. destruct H; eauto. Qed.

Lemma is_digit_underscore : is_digit "_"%char = false.
Proof. reflexivity. Qed.

Lemma some_scan_eq (v v' k k' : Z) (rest : list ascii) :
  v = v' -> k = k' -> Some (v, k, rest) = Some (v', k', rest).
Proof. intros -> ->. reflexivity. Qed.

Lemma scan_digits_groups (raw ds rest : list ascii) :
  digit_groups raw ds -> scan_stops rest ->
  forall acc nd pu,
    scan_digits (raw ++ rest) acc nd pu =
    Some (fold_left digit_step ds acc, nd + Z.of_nat (length ds), rest).
Proof.
  intros Hg Hstop. induction Hg as [c Hc|c raw ds Hc Hg IH|c raw ds Hc Hg IH];
    intros acc nd pu; cbn [app scan_digits]; rewrite Hc.
  - destruct rest as [|c' r]; cbn [scan_digits].
    + cbn [fold_left length]. apply some_scan_eq; [reflexivity|lia].
    + destruct Hstop as [Hd Hu]. rewrite Hd, Hu.
      cbn [fold_left length]. apply some_scan_eq; [reflexivity|lia].
  - rewrite IH. cbn [fold_left length]. apply some_scan_eq; [reflexivity|lia].
  - cbn [scan_digits]. rewrite is_digit_underscore. unfold is_underscore at 1.
    cbn [Ascii.eqb Bool.eqb]. rewrite IH. cbn [fold_left length]. apply some_scan_eq; [reflexivity|lia].
Qed.

Lemma scan_digits_inv (l : list ascii) :
  forall acc nd pu v k rest,
    scan_digits l acc nd pu = Some (v, k, rest) ->
    exists raw ds,
      l = raw ++ rest /\ v = fold_left digit_step ds acc /\
      k = nd + Z.of_nat (length ds) /\ scan_stops rest /\
      ((raw = [] /\ ds = [] /\ pu = false) \/ digit_groups raw ds \/
       (pu = false /\ exists raw', raw = "_"%char :: raw' /\ digit_groups raw' ds)).
Proof.
  induction l as [|c l IH]; intros acc nd pu v k rest H; cbn [scan_digits] in H.
  - destruct pu; [discriminate H|]. injection H as <- <- <-.
    exists [], []. cbn. repeat split; [lia|]. left. auto.
  - destruct (is_digit c) eqn:Hd; [|destruct (is_underscore c) eqn:Hu].
    + apply IH in H. destruct H as [raw [ds [Hl [Hv [Hk [Hst Hsh]]]]]].
      exists (c :: raw), (c :: ds). rewrite Hl.
      split; [reflexivity|]. split; [exact Hv|]. split; [cbn [length]; lia|].
      split; [exact Hst|]. right. left.
      destruct Hsh as [[-> [-> _]] | [Hg | [_ [raw' [-> Hg]]]]].
      * apply dg_one, Hd.
      * apply dg_cons; assumption.
      * apply dg_us; assumption.
    + destruct pu; [discriminate H|]. apply IH in H.
      destruct H as [raw [ds [Hl [Hv [Hk [Hst Hsh]]]]]].
      destruct Hsh as [[_ [_ Habs]] | [Hg | [Habs _]]]; try discriminate Habs.
      unfold is_underscore in Hu. apply Ascii.eqb_eq in Hu. subst c.
      exists ("_"%char :: raw), ds. rewrite Hl.
      split; [reflexivity|]. split; [exact Hv|]. split; [exact Hk|].
      split; [exact Hst|]. right. right. split; [reflexivity|]. exists raw. auto.
    + destruct pu; [discriminate H|]. injection H as <- <- <-.
      exists [], []. cbn [app fold_left length].
      split; [reflexivity|]. split; [reflexivity|]. split; [lia|].
      split; [split; assumption|]. left. auto.
Qed.

End PyIntFacts.

(** ** Witnesses: the theorems applied at concrete requests *)

Section Witnesses.

Local Open Scope string_scope.

Lemma get_msg_is_square_witness :
  PyInt.int_arg default_max_str_digits (Some "-3") = Normal (-3) /\
  run (get default_max_str_digits (Some "-3")) [100; 5] =
    Some (Normal (Some (json_response (success_payload 9 250))), mk_state [] (draws_trace 100 5)) /\
  9 = -3 * -3.
Proof.
  split; [reflexivity|]. split; [reflexivity|].
  apply (get_msg_is_square default_max_str_digits (Some "-3") (-3) [100; 5]
           (json_response (success_payload 9 250)) (mk_state [] (draws_trace 100 5)) 9 250);
    reflexivity.
Defined.

Lemma get_ttl_is_TTL_plus_delay_witness :
  PyInt.int_arg default_max_str_digits (Some "5") = Normal 5 /\
  run (get default_max_str_digits (Some "5")) [200; 10] =
    Some (Normal (Some (json_response (success_payload 25 350))), mk_state [] (draws_trace 200 10)) /\
  exists r1 r2 rest,
    [200; 10] = r1 :: r2 :: rest /\ 50 <= r1 <= 200 /\
    trace (mk_state [] (draws_trace 200 10)) = draws_trace r1 r2 /\
    TTL = 100 /\ 350 = TTL + (50 + r1) /\ 150 <= 350 <= 350.
Proof.
  split; [reflexivity|]. split; [reflexivity|].
  apply (get_ttl_is_TTL_plus_delay default_max_str_digits (Some "5") 5 [200; 10]
           (json_response (success_payload 25 350)) (mk_state [] (draws_trace 200 10)) 25 350);
    reflexivity.
Defined.

Lemma get_parse_failure_returns_none_witness :
  PyInt.int_arg default_max_str_digits (Some "abc") = Raised (ValueError_invalid_literal "abc") /\
  run (get default_max_str_digits (Some "abc")) [100; 0] =
    Some (Normal None, mk_state [100; 0] [EvPrint (ValueError_invalid_literal "abc")]).
Proof.
  split; [reflexivity|].
  apply (get_parse_failure_returns_none default_max_str_digits (Some "abc")
           (ValueError_invalid_literal "abc") [100; 0]).
  reflexivity.
Defined.

Lemma get_effect_order_witness :
  PyInt.int_arg default_max_str_digits (Some "7") = Normal 7 /\
  run (get default_max_str_digits (Some "7")) [60; 0] =
    Some (Normal (Some (json_response error_payload)), mk_state [] (draws_trace 60 0)) /\
  exists r1 r2 post,
    trace (mk_state [] (draws_trace 60 0)) =
      ([EvRandint 50 200 r1; EvSleep (Qmake (50 + r1) 1000); EvRandint 0 10 r2] ++ post)%list /\
    50 <= r1 <= 200 /\ 0 <= r2 <= 10 /\
    (post = [] \/ exists e, post = [EvPrint e]) /\
    (Normal (Some (json_response error_payload)) = Normal (Some (json_response error_payload))
       <-> r2 = 0) /\
    (r2 = 0 -> post = []).
Proof.
  split; [reflexivity|]. split; [reflexivity|].
  apply (get_effect_order default_max_str_digits (Some "7") 7 [60; 0]
           (Normal (Some (json_response error_payload))) (mk_state [] (draws_trace 60 0)));
    reflexivity.
Defined.

Lemma get_ttl_range_witness :
  run (get default_max_str_digits (Some "12")) [50; 10] =
    Some (Normal (Some (json_response (success_payload 144 200))), mk_state [] (draws_trace 50 10)) /\
  body (json_response (success_payload 144 200)) = success_payload 144 200 /\
  200 <= 200 <= 350.
Proof.
  split; [reflexivity|]. split; [reflexivity|].
  apply (get_ttl_range default_max_str_digits (Some "12") [50; 10]
           (json_response (success_payload 144 200)) (mk_state [] (draws_trace 50 10)) 144 200);
    reflexivity.
Defined.

Lemma get_error_iff_draw_zero_witness :
  valid_limit default_max_str_digits /\
  PyInt.int_arg default_max_str_digits (Some "5") = Normal 5 /\
  50 <= 100 <= 200 /\ 0 <= 3 <= 10 /\
  (((exists st, run (get default_max_str_digits (Some "5")) [100; 3] =
                Some (Normal (Some (json_response error_payload)), st)) <-> 3 = 0) /\
   (3 <> 0 -> int_str_ok default_max_str_digits (5 * 5) = true ->
    run (get default_max_str_digits (Some "5")) [100; 3] =
    Some (Normal (Some (json_response (success_payload (5 * 5) (TTL + (50 + 100))))),
          mk_state [] (draws_trace 100 3))) /\
   (3 <> 0 -> int_str_ok default_max_str_digits (5 * 5) = false ->
    run (get default_max_str_digits (Some "5")) [100; 3] =
    Some (Normal None,
          mk_state [] (draws_trace 100 3 ++ [EvPrint (ValueError_int_to_str_limit default_max_str_digits)])%list))).
Proof.
  assert (Hl : valid_limit default_max_str_digits) by (right; unfold default_max_str_digits; lia).
  split; [exact Hl|]. split; [reflexivity|]. split; [lia|]. split; [lia|].
  apply (get_error_iff_draw_zero default_max_str_digits (Some "5") 5 100 3 []);
    [exact Hl | reflexivity | lia | lia].
Defined.

Lemma get_responses_json_200_witness :
  valid_limit default_max_str_digits /\
  PyInt.int_arg default_max_str_digits (Some "-3") = Normal (-3) /\
  50 <= 75 <= 200 /\ 0 <= 0 <= 10 /\
  exists res st,
    run (get default_max_str_digits (Some "-3")) [75; 0] = Some (Normal res, st) /\
    (forall resp, res = Some resp ->
       status resp = 200 /\ mimetype resp = "application/json" /\
       (body resp = error_payload \/ body resp = success_payload (-3 * -3) (TTL + (50 + 75)))) /\
    (res = None <-> 0 <> 0 /\ int_str_ok default_max_str_digits (-3 * -3) = false).
Proof.
  assert (Hl : valid_limit default_max_str_digits) by (right; unfold default_max_str_digits; lia).
  split; [exact Hl|]. split; [reflexivity|]. split; [lia|]. split; [lia|].
  apply (get_responses_json_200 default_max_str_digits (Some "-3") (-3) 75 0 []);
    [exact Hl | reflexivity | lia | lia].
Defined.

End Witnesses.

(** ** Further properties of the handler and of [int(s, 10)] *)

Lemma prints_app (t1 t2 : list event) : prints (t1 ++ t2) = prints t1 ++ prints t2.
Proof.
  induction t1 as [|ev t1 IH]; [reflexivity|]. destruct ev; cbn [app prints]; rewrite ?IH; reflexivity.
Qed.

Lemma sleeps_app (t1 t2 : list event) : sleeps (t1 ++ t2) = sleeps t1 ++ sleeps t2.
Proof.
  induction t1 as [|ev t1 IH]; [reflexivity|]. destruct ev; cbn [app sleeps]; rewrite ?IH; reflexivity.
Qed.

(** Every run of the handler ends normally: no exception escapes the
    [try].  It either returns [None] after printing exactly one exception,
    or returns a response and prints nothing. *)
Theorem get_prints_exactly_on_none (lim : Z) (num : option string) (ds : list Z)
    (res : outcome (option response)) (st : state) :
  run (get lim num) ds = Some (res, st) ->
  (res = Normal None /\ exists e, prints (trace st) = [e]) \/
  (exists resp, res = Normal (Some resp) /\ prints (trace st) = []).
Proof.
  intros Hrun. destruct (PyInt.int_arg lim num) as [n|e] eqn:Hp.
  - rewrite (get_normal_run lim num n ds Hp) in Hrun.
    get_parsed_cases Hrun; run_inj Hrun; cbn [trace].
    + right. eexists. split; reflexivity.
    + right. eexists. split; reflexivity.
    + left. split; [reflexivity|]. eexists. rewrite prints_app. reflexivity.
  - rewrite (get_raised_run lim num e ds Hp) in Hrun. run_inj Hrun.
    left. split; [reflexivity|]. exists e. reflexivity.
Qed.

(** [random.randint] is called twice when [num] parses and never when it
    does not: the random source advances by exactly two values or not at
    all. *)
Theorem get_consumes_two_draws (lim : Z) (num : option string) (ds : list Z)
    (res : outcome (option response)) (st : state) :
  run (get lim num) ds = Some (res, st) ->
  match PyInt.int_arg lim num with
  | Normal _ => exists r1 r2, ds = r1 :: r2 :: draws st
  | Raised _ => draws st = ds
  end.
Proof.
  intros Hrun. destruct (PyInt.int_arg lim num) as [n|e] eqn:Hp.
  - rewrite (get_normal_run lim num n ds Hp) in Hrun.
    get_parsed_cases Hrun; run_inj Hrun; cbn [draws]; eexists _, _; reflexivity.
  - rewrite (get_raised_run lim num e ds Hp) in Hrun. run_inj Hrun. reflexivity.
Qed.

(** A request sleeps once, between 0.1 and 0.25 seconds, when [num] parses,
    and not at all when it does not. *)
Theorem get_sleep_bounds (lim : Z) (num : option string) (ds : list Z)
    (res : outcome (option response)) (st : state) :
  run (get lim num) ds = Some (res, st) ->
  match PyInt.int_arg lim num with
  | Normal _ => exists q, sleeps (trace st) = [q] /\ (1 # 10 <= q <= 1 # 4)%Q
  | Raised _ => sleeps (trace st) = []
  end.
Proof.
  intros Hrun. destruct (PyInt.int_arg lim num) as [n|e] eqn:Hp.
  - rewrite (get_normal_run lim num n ds Hp) in Hrun.
    get_parsed_cases Hrun; run_inj Hrun; cbn [trace]; bool_facts;
      (eexists; split; [rewrite ?sleeps_app; reflexivity|]);
      unfold Qle; cbn [Qnum Qden]; split; lia.
  - rewrite (get_raised_run lim num e ds Hp) in Hrun. run_inj Hrun. reflexivity.
Qed.

(** The handler sees the parsed number only through its square: two values
    of [num] that parse to numbers with the same square (such as "5" and
    "-5", or "+5" and " 0_5 ") give identical runs for the same draws. *)
Theorem get_same_square_same_run (lim : Z) (num1 num2 : option string) (n1 n2 : Z) (ds : list Z) :
  PyInt.int_arg lim num1 = Normal n1 ->
  PyInt.int_arg lim num2 = Normal n2 ->
  n1 * n1 = n2 * n2 ->
  run (get lim num1) ds = run (get lim num2) ds.
Proof.
  intros H1 H2 Hsq.
  rewrite (get_normal_run lim num1 n1 ds H1), (get_normal_run lim num2 n2 ds H2).
  unfold get_parsed_run. rewrite Hsq. reflexivity.
Qed.

Lemma literal_of_int_base10 (lim : Z) (s : string) (n : Z) :
  PyInt.int_base10 lim s = Normal n -> py_int_literal lim s n.
Proof.
  unfold PyInt.int_base10.
  destruct (PyIntFacts.skip_space_split (list_ascii_of_string s)) as [ws1 [Hl0 [Hws1 _]]].
  destruct (PyInt.read_sign (PyInt.skip_space (list_ascii_of_string s))) as [sign l2] eqn:Hsg.
  destruct (PyInt.scan_digits l2 0 0 true) as [[[v k] rest]|] eqn:Hsc; [|discriminate].
  destruct (PyInt.exceeds_limit lim k) eqn:Hex; [discriminate|].
  destruct (PyInt.skip_space rest) eqn:Hr; [|discriminate].
  intros H. injection H as <-.
  apply PyIntFacts.scan_digits_inv in Hsc.
  destruct Hsc as [raw [ds [Hl2 [Hv [Hk [_ Hsh]]]]]].
  destruct Hsh as [[_ [_ Habs]] | [Hg | [Habs _]]]; try discriminate Habs.
  apply PyIntFacts.read_sign_inv in Hsg. destruct Hsg as [sg [Hl1 Hsign]].
  exists ws1, sg, raw, ds, rest.
  split; [rewrite Hl0, Hl1, Hl2; reflexivity|].
  split; [exact Hws1|]. split; [apply PyIntFacts.skip_space_nil, Hr|].
  split; [exact Hg|].
  split; [rewrite Hk in Hex; exact Hex|].
  unfold sign_prefix, decimal_value. rewrite Hv.
  destruct Hsign as [[-> ->] | [[-> ->] | [-> ->]]]; [left | right; left | right; right];
    (split; [reflexivity|lia]).
Qed.

Lemma int_base10_of_literal (lim : Z) (s : string) (n : Z) :
  py_int_literal lim s n -> PyInt.int_base10 lim s = Normal n.
Proof.
  intros [ws1 [sg [raw [ds [ws2 [Hl [Hw1 [Hw2 [Hg [Hex Hsp]]]]]]]]]].
  destruct (PyIntFacts.digit_groups_head raw ds Hg) as [c [r [Hraw Hc]]].
  destruct (PyIntFacts.digit_char_facts c Hc) as [Hcs [_ [Hcp Hcm]]].
  assert (Hstop : scan_stops ws2).
  { destruct ws2 as [|w ws2]; [exact I|].
    cbn [forallb] in Hw2. apply andb_prop in Hw2. destruct Hw2 as [Hw _].
    exact (PyIntFacts.space_char_facts w Hw). }
  unfold PyInt.int_base10. rewrite Hl.
  rewrite PyIntFacts.skip_space_app by
    (exact Hw1 || (intros c' r' Heq; destruct Hsp as [[-> _] | [[-> _] | [-> _]]];
                   rewrite ?Hraw in Heq; cbn [app] in Heq; injection Heq as <- _;
                   first [exact Hcs | reflexivity])).
  assert (Hrs : exists sign, PyInt.read_sign (sg ++ raw ++ ws2) = (sign, raw ++ ws2) /\
                             n = sign * decimal_value ds).
  { destruct Hsp as [[-> ->] | [[-> ->] | [-> ->]]].
    - exists 1. rewrite Hraw. cbn [app PyInt.read_sign]. rewrite Hcp, Hcm.
      split; [reflexivity|lia].
    - exists 1. split; [reflexivity|lia].
    - exists (-1). split; [reflexivity|lia]. }
  destruct Hrs as [sign [-> ->]].
  rewrite (PyIntFacts.scan_digits_groups raw ds ws2 Hg Hstop 0 0 true), Z.add_0_l, Hex.
  rewrite (PyIntFacts.skip_space_all ws2 Hw2). reflexivity.
Qed.

Lemma digit_groups_digits (raw ds : list ascii) :
  digit_groups raw ds -> forallb PyInt.is_digit ds = true.
Proof.
  induction 1 as [c Hc|c raw ds Hc _ IH|c raw ds Hc _ IH]; cbn [forallb];
    rewrite Hc; [reflexivity|exact IH|exact IH].
Qed.

Lemma digit_value_range (c : ascii) : PyInt.is_digit c = true -> 0 <= PyInt.digit_value c <= 9.
Proof.
  unfold PyInt.is_digit, PyInt.digit_value. intros H.
  apply andb_prop in H. destruct H as [H1 H2].
  apply Nat.leb_le in H1. apply Nat.leb_le in H2. lia.
Qed.

Lemma fold_digit_step_bound (ds : list ascii) :
  forallb PyInt.is_digit ds = true ->
  forall acc, 0 <= acc ->
  0 <= fold_left digit_step ds acc < (acc + 1) * 10 ^ Z.of_nat (length ds).
Proof.
  induction ds as [|c ds IH]; intros Hd acc Hacc.
  - cbn. lia.
  - cbn [forallb] in Hd. apply andb_prop in Hd. destruct Hd as [Hc Hd].
    pose proof (digit_value_range c Hc) as Hv.
    cbn [fold_left length].
    change (digit_step acc c) with (acc * 10 + PyInt.digit_value c).
    destruct (IH Hd (acc * 10 + PyInt.digit_value c)) as [Hlo Hhi]; [lia|].
    split; [exact Hlo|].
    rewrite Nat2Z.inj_succ, Z.pow_succ_r by lia.
    set (P := 10 ^ Z.of_nat (length ds)) in *.
    assert (0 < P) by (apply Z.pow_pos_nonneg; lia).
    assert ((acc * 10 + PyInt.digit_value c + 1) * P <= ((acc + 1) * 10) * P)
      by (apply Z.mul_le_mono_nonneg_r; lia).
    rewrite Z.mul_assoc. lia.
Qed.

(** Under a digit limit (CPython 3.11 and later), [int(s, 10)] only returns
    numbers of at most [lim] decimal digits: [|n| < 10 ^ lim]. *)
Theorem int_base10_magnitude (lim : Z) (s : string) (n : Z) :
  0 < lim ->
  PyInt.int_base10 lim s = Normal n ->
  Z.abs n < 10 ^ lim.
Proof.
  intros Hlim Hs.
  destruct (literal_of_int_base10 lim s n Hs)
    as [v1 [sg [raw [ds [v2 [_ [_ [_ [Hg [Hex Hsp]]]]]]]]]].
  unfold PyInt.exceeds_limit in Hex.
  apply andb_false_iff in Hex. destruct Hex as [Hex|Hex].
  - apply Z.ltb_ge in Hex. lia.
  - apply Z.ltb_ge in Hex.
    destruct (fold_digit_step_bound ds (digit_groups_digits raw ds Hg) 0) as [Hlo Hhi]; [lia|].
    assert (10 ^ Z.of_nat (length ds) <= 10 ^ lim) by (apply Z.pow_le_mono_r; lia).
    unfold sign_prefix, decimal_value in Hsp.
    destruct Hsp as [[_ ->] | [[_ ->] | [_ ->]]]; rewrite ?Z.abs_opp, Z.abs_eq by lia; lia.
Qed.

(** ** Facts on [int(s, 10)] over code points *)

Module PyUnicodeFacts.

Lemma ascii_eqb_nat (a b : ascii) :
  Ascii.eqb a b = Nat.eqb (nat_of_ascii a) (nat_of_ascii b).
Proof.
  destruct (Ascii.eqb_spec a b) as [->|Hne].
  - symmetry. apply Nat.eqb_refl.
  - symmetry. apply Nat.eqb_neq. intros Heq. apply Hne.
    rewrite <- (ascii_nat_embedding a), <- (ascii_nat_embedding b), Heq. reflexivity.
Qed.

Ltac nat_bools :=
  rewrite ?orb_true_iff, ?andb_true_iff, ?Nat.leb_le, ?Nat.eqb_eq in *.

(** [int(s, 10)] on a string raises only a [ValueError]. *)
Lemma int_base10_raised (lim : Z) (s : string) (e : exn) :
  PyInt.int_base10 lim s = Raised e -> is_value_error e.
Proof.
  unfold PyInt.int_base10.
  destruct (PyInt.read_sign (PyInt.skip_space (list_ascii_of_string s))) as [sign l].
  destruct (PyInt.scan_digits l 0 0 true) as [[[v k] rest]|];
    [|intros H; injection H as <-; exact I].
  destruct (PyInt.exceeds_limit lim k); [intros H; injection H as <-; exact I|].
  destruct (PyInt.skip_space rest); intros H; [discriminate H|injection H as <-; exact I].
Qed.

Section Db.

Variable isp : Z -> bool.
Variable dec : Z -> option Z.
Hypothesis Hdec : forall c d, dec c = Some d -> 0 <= d <= 9.
Hypothesis H127 : isp 127 = false /\ dec 127 = None.

Let cls := PyUnicode.same_class isp dec.

(** An ASCII character read from its code [k]. *)
Lemma same_class_nat (c : Z) :
  0 <= c < 256 ->
  (c < 127 \/ 127 <= c /\ isp c = ((c =? 133) || (c =? 160)) /\ dec c = None) ->
  cls c (PyUnicode.ascii_of_code c).
Proof.
  intros Hr Hc. unfold cls, PyUnicode.same_class, PyUnicode.ascii_of_code,
    PyUnicode.uspace, PyUnicode.udigit, PyInt.is_space, PyInt.is_digit,
    PyInt.digit_value, PyInt.is_underscore.
  rewrite !ascii_eqb_nat, nat_ascii_embedding by lia.
  cbn [nat_of_ascii Ascii.nat_of_ascii N_of_ascii N_of_digits N.to_nat].
  set (k := Z.to_nat c). assert (Hk : c = Z.of_nat k) by (unfold k; lia).
  clearbody k. subst c.
  change (nat_of_ascii "+"%char) with 43%nat.
  change (nat_of_ascii "-"%char) with 45%nat.
  change (nat_of_ascii "_"%char) with 95%nat.
  destruct Hc as [Hc|[Hc [Hi Hd]]]; rewrite ?Hi, ?Hd;
    (split; [|split; [intros d|split; [|split]]]);
    rewrite ?orb_true_iff, ?andb_true_iff, ?Nat.leb_le, ?Nat.eqb_eq, ?Z.eqb_eq;
    (split; intros H; intuition (try lia; try discriminate)).
Qed.

Lemma same_class_low (c : Z) : c < 127 -> cls c (PyUnicode.ascii_of_code c).
Proof.
  intros Hc. destruct (Z.ltb_spec c 0) as [Hn|Hn].
  - unfold cls, PyUnicode.same_class, PyUnicode.ascii_of_code, PyUnicode.uspace, PyUnicode.udigit.
    replace (Z.to_nat c) with 0%nat by lia. cbn.
    repeat split; intros; intuition (try lia; try discriminate).
  - apply same_class_nat; lia.
Qed.

Lemma same_class_127 : cls 127 (PyUnicode.ascii_of_code 127).
Proof.
  destruct H127 as [Hi Hd].
  apply same_class_nat; [lia|]. right. rewrite Hi, Hd. split; [lia|]. split; reflexivity.
Qed.

Lemma same_class_space (c : Z) : 127 <= c -> isp c = true -> cls c " "%char.
Proof.
  intros Hc Hi. unfold cls, PyUnicode.same_class, PyUnicode.uspace, PyUnicode.udigit.
  rewrite Hi. cbn.
  repeat split; intros; intuition (try lia; try discriminate).
Qed.

Lemma same_class_decimal (c d : Z) :
  127 <= c -> isp c = false -> dec c = Some d -> cls c (PyUnicode.ascii_of_code (48 + d)).
Proof.
  intros Hc Hi Hd. pose proof (Hdec c d Hd) as Hr.
  unfold cls, PyUnicode.same_class, PyUnicode.ascii_of_code, PyUnicode.uspace, PyUnicode.udigit,
    PyInt.is_space, PyInt.is_digit, PyInt.digit_value, PyInt.is_underscore.
  rewrite !ascii_eqb_nat, nat_ascii_embedding by lia.
  change (nat_of_ascii "+"%char) with 43%nat.
  change (nat_of_ascii "-"%char) with 45%nat.
  change (nat_of_ascii "_"%char) with 95%nat.
  rewrite Hi, Hd.
  split; [|split; [intros d'|split; [|split]]];
    rewrite ?orb_true_iff, ?andb_true_iff, ?Nat.leb_le, ?Nat.eqb_eq.
  - split; intros H; intuition (try lia; try discriminate).
  - split.
    + intros [_ Hv]. right. split; [lia|]. split; [reflexivity|]. f_equal. lia.
    + intros [[Hl _]|[_ [_ Hv]]]; [lia|]. injection Hv as <-. lia.
  - split; intros H; lia.
  - split; intros H; lia.
  - split; intros H; lia.
Qed.

Lemma mapped_low (c : Z) : c < 127 -> PyUnicode.mapped isp dec c = true.
Proof. intros Hc. unfold PyUnicode.mapped. apply Z.ltb_lt in Hc. rewrite Hc. reflexivity. Qed.

Lemma mapped_uspace (c : Z) : PyUnicode.uspace isp c -> PyUnicode.mapped isp dec c = true.
Proof.
  intros [Hc|[_ Hi]]; [apply mapped_low; lia|].
  unfold PyUnicode.mapped. rewrite Hi, orb_true_r. reflexivity.
Qed.

Lemma mapped_udigit (c d : Z) : PyUnicode.udigit isp dec c d -> PyUnicode.mapped isp dec c = true.
Proof.
  intros [[Hc _]|[_ [_ Hd]]]; [apply mapped_low; lia|].
  unfold PyUnicode.mapped. rewrite Hd, orb_true_r. reflexivity.
Qed.

Lemma same_class_transform_chars (s : list Z) :
  forallb (PyUnicode.mapped isp dec) s = true ->
  Forall2 cls s (PyUnicode.transform_chars isp dec s).
Proof.
  induction s as [|c s IH]; intros Hm; [constructor|].
  cbn [forallb] in Hm. apply andb_prop in Hm. destruct Hm as [Hc Hm].
  cbn [PyUnicode.transform_chars]. unfold PyUnicode.mapped in Hc.
  destruct (Z.ltb_spec c 127) as [Hl|Hl].
  - constructor; [apply same_class_low, Hl|apply IH, Hm].
  - destruct (isp c) eqn:Hi.
    + constructor; [apply same_class_space; assumption|apply IH, Hm].
    + destruct (dec c) as [d|] eqn:Hd; [|discriminate Hc].
      constructor; [apply same_class_decimal; assumption|apply IH, Hm].
Qed.

Lemma transform_chars_unmapped (s : list Z) :
  forallb (PyUnicode.mapped isp dec) s = false ->
  exists pre c rest,
    s = pre ++ c :: rest /\ PyUnicode.mapped isp dec c = false /\
    PyUnicode.transform_chars isp dec s = PyUnicode.transform_chars isp dec pre ++ ["?"%char].
Proof.
  induction s as [|c s IH]; intros Hm; [discriminate Hm|].
  cbn [forallb] in Hm. destruct (PyUnicode.mapped isp dec c) eqn:Hc.
  - destruct (IH Hm) as [pre [c' [rest [-> [Hc' Ht]]]]].
    exists (c :: pre), c', rest. split; [reflexivity|]. split; [exact Hc'|].
    unfold PyUnicode.mapped in Hc. cbn [PyUnicode.transform_chars app].
    destruct (c <? 127); [rewrite Ht; reflexivity|].
    destruct (isp c); [rewrite Ht; reflexivity|].
    destruct (dec c); [rewrite Ht; reflexivity|discriminate Hc].
  - exists [], c, s. split; [reflexivity|]. split; [exact Hc|].
    unfold PyUnicode.mapped in Hc. cbn [PyUnicode.transform_chars app].
    destruct (c <? 127); [discriminate Hc|]. destruct (isp c); [discriminate Hc|].
    destruct (dec c); [discriminate Hc|reflexivity].
Qed.

Lemma same_class_ascii (s : list Z) :
  forallb (fun c => c <? 128) s = true -> Forall2 cls s (map PyUnicode.ascii_of_code s).
Proof.
  induction s as [|c s IH]; intros Ha; [constructor|].
  cbn [forallb] in Ha. apply andb_prop in Ha. destruct Ha as [Hc Ha].
  apply Z.ltb_lt in Hc. cbn [map]. constructor; [|apply IH, Ha].
  destruct (Z.ltb_spec c 127); [apply same_class_low; assumption|].
  replace c with 127 by lia. exact same_class_127.
Qed.

Lemma f2_nil_l {A B} (R : A -> B -> Prop) (l : list B) : Forall2 R [] l -> l = [].
Proof. intros H. inversion H. reflexivity. Qed.

Lemma f2_nil_r {A B} (R : A -> B -> Prop) (l : list A) : Forall2 R l [] -> l = [].
Proof. intros H. inversion H. reflexivity. Qed.

Lemma f2_cons_l {A B} (R : A -> B -> Prop) (x : A) (l : list A) (l' : list B) :
  Forall2 R (x :: l) l' -> exists y l0, l' = y :: l0 /\ R x y /\ Forall2 R l l0.
Proof. intros H. inversion H; subst. eauto. Qed.

Lemma f2_cons_r {A B} (R : A -> B -> Prop) (l : list A) (y : B) (l' : list B) :
  Forall2 R l (y :: l') -> exists x l0, l = x :: l0 /\ R x y /\ Forall2 R l0 l'.
Proof. intros H. inversion H; subst. eauto. Qed.

Lemma spaces_transfer (ws : list Z) (wa : list ascii) :
  Forall2 cls ws wa -> (forallb PyInt.is_space wa = true <-> Forall (PyUnicode.uspace isp) ws).
Proof.
  induction 1 as [|x y ws wa Hxy _ IH]; cbn [forallb].
  - split; intros _; [constructor|reflexivity].
  - destruct Hxy as [Hs _]. rewrite andb_true_iff, Hs, IH.
    split; [intros [H1 H2]; constructor; assumption|intros H; inversion H; auto].
Qed.

Lemma groups_to_code (rawa dsa : list ascii) :
  digit_groups rawa dsa -> forall raw, Forall2 cls raw rawa ->
  exists ds, PyUnicode.udigit_groups isp dec raw ds /\
             Forall2 (fun d a => PyInt.digit_value a = d) ds dsa.
Proof.
  induction 1 as [c Hc|c rawa dsa Hc _ IH|c rawa dsa Hc _ IH]; intros raw HF.
  - destruct (f2_cons_r _ _ _ _ HF) as [x [l0 [-> [Hx H0]]]].
    apply f2_nil_r in H0. subst l0.
    exists [PyInt.digit_value c]. split; [|constructor; [reflexivity|constructor]].
    apply PyUnicode.ug_one. apply (proj1 (proj2 Hx)). split; [exact Hc|reflexivity].
  - destruct (f2_cons_r _ _ _ _ HF) as [x [l0 [-> [Hx H0]]]].
    destruct (IH l0 H0) as [ds [Hg Hd]].
    exists (PyInt.digit_value c :: ds). split; [|constructor; [reflexivity|exact Hd]].
    apply PyUnicode.ug_cons; [|exact Hg].
    apply (proj1 (proj2 Hx)). split; [exact Hc|reflexivity].
  - destruct (f2_cons_r _ _ _ _ HF) as [x [l0 [-> [Hx H0]]]].
    destruct (f2_cons_r _ _ _ _ H0) as [u [l1 [-> [Hu H1]]]].
    assert (u = 95) as -> by (apply (proj2 (proj2 (proj2 (proj2 Hu)))); reflexivity).
    destruct (IH l1 H1) as [ds [Hg Hd]].
    exists (PyInt.digit_value c :: ds). split; [|constructor; [reflexivity|exact Hd]].
    apply PyUnicode.ug_us; [|exact Hg].
    apply (proj1 (proj2 Hx)). split; [exact Hc|reflexivity].
Qed.

Lemma groups_of_code (raw ds : list Z) :
  PyUnicode.udigit_groups isp dec raw ds -> forall rawa, Forall2 cls raw rawa ->
  exists dsa, digit_groups rawa dsa /\
              Forall2 (fun d a => PyInt.digit_value a = d) ds dsa.
Proof.
  induction 1 as [c d Hc|c d raw ds Hc _ IH|c d raw ds Hc _ IH]; intros rawa HF.
  - destruct (f2_cons_l _ _ _ _ HF) as [y [l0 [-> [Hy H0]]]].
    apply f2_nil_l in H0. subst l0.
    destruct (proj2 (proj1 (proj2 Hy) d) Hc) as [Hd Hv].
    exists [y]. split; [apply dg_one, Hd|constructor; [exact Hv|constructor]].
  - destruct (f2_cons_l _ _ _ _ HF) as [y [l0 [-> [Hy H0]]]].
    destruct (proj2 (proj1 (proj2 Hy) d) Hc) as [Hd Hv].
    destruct (IH l0 H0) as [dsa [Hg Hds]].
    exists (y :: dsa). split; [apply dg_cons; assumption|constructor; assumption].
  - destruct (f2_cons_l _ _ _ _ HF) as [y [l0 [-> [Hy H0]]]].
    destruct (f2_cons_l _ _ _ _ H0) as [u [l1 [-> [Hu H1]]]].
    assert (u = "_"%char) as ->.
    { apply Ascii.eqb_eq. apply (proj2 (proj2 (proj2 (proj2 Hu)))). reflexivity. }
    destruct (proj2 (proj1 (proj2 Hy) d) Hc) as [Hd Hv].
    destruct (IH l1 H1) as [dsa [Hg Hds]].
    exists (y :: dsa). split; [apply dg_us; assumption|constructor; assumption].
Qed.

Lemma sign_transfer (sg : list Z) (sga : list ascii) (v n : Z) :
  Forall2 cls sg sga -> (sign_prefix sga v n <-> PyUnicode.usign_prefix sg v n).
Proof.
  intros HF. unfold sign_prefix, PyUnicode.usign_prefix. split.
  - intros [[-> Hn]|[[-> Hn]|[-> Hn]]].
    + apply f2_nil_r in HF. left. auto.
    + destruct (f2_cons_r _ _ _ _ HF) as [x [l0 [-> [Hx H0]]]].
      apply f2_nil_r in H0. subst l0.
      assert (x = 43) as -> by (apply (proj1 (proj2 (proj2 Hx))); reflexivity).
      right. left. auto.
    + destruct (f2_cons_r _ _ _ _ HF) as [x [l0 [-> [Hx H0]]]].
      apply f2_nil_r in H0. subst l0.
      assert (x = 45) as -> by (apply (proj1 (proj2 (proj2 (proj2 Hx)))); reflexivity).
      right. right. auto.
  - intros [[-> Hn]|[[-> Hn]|[-> Hn]]].
    + apply f2_nil_l in HF. left. auto.
    + destruct (f2_cons_l _ _ _ _ HF) as [y [l0 [-> [Hy H0]]]].
      apply f2_nil_l in H0. subst l0.
      assert (y = "+"%char) as -> by (apply Ascii.eqb_eq, (proj1 (proj2 (proj2 Hy))); reflexivity).
      right. left. auto.
    + destruct (f2_cons_l _ _ _ _ HF) as [y [l0 [-> [Hy H0]]]].
      apply f2_nil_l in H0. subst l0.
      assert (y = "-"%char) as -> by (apply Ascii.eqb_eq, (proj1 (proj2 (proj2 (proj2 Hy)))); reflexivity).
      right. right. auto.
Qed.

Lemma fold_transfer (ds : list Z) (dsa : list ascii) :
  Forall2 (fun d a => PyInt.digit_value a = d) ds dsa ->
  forall acc, fold_left digit_step dsa acc = fold_left (fun acc d => acc * 10 + d) ds acc.
Proof.
  induction 1 as [|d a ds dsa Hd _ IH]; intros acc; [reflexivity|].
  cbn [fold_left]. rewrite IH. unfold digit_step. rewrite Hd. reflexivity.
Qed.

(** The grammar on ASCII characters and the grammar on code points agree on
    strings that read alike. *)
Lemma literal_transfer (lim : Z) (s : list Z) (a : list ascii) (n : Z) :
  Forall2 cls s a ->
  (py_int_literal lim (string_of_list_ascii a) n <-> PyUnicode.int_literal isp dec lim s n).
Proof.
  intros HF. unfold py_int_literal, PyUnicode.int_literal.
  rewrite list_ascii_of_string_of_list_ascii. split.
  - intros (ws1a & sga & rawa & dsa & ws2a & -> & Hw1 & Hw2 & Hg & Hex & Hsp).
    apply Forall2_app_inv_r in HF as (ws1 & s1 & F1 & HF & ->).
    apply Forall2_app_inv_r in HF as (sg & s2 & F2 & HF & ->).
    apply Forall2_app_inv_r in HF as (raw & ws2 & F3 & F4 & ->).
    destruct (groups_to_code rawa dsa Hg raw F3) as (ds & Hug & Fd).
    exists ws1, sg, raw, ds, ws2. split; [reflexivity|].
    split; [apply (spaces_transfer _ _ F1), Hw1|].
    split; [apply (spaces_transfer _ _ F4), Hw2|].
    split; [exact Hug|]. split; [rewrite (Forall2_length Fd); exact Hex|].
    apply (sign_transfer _ _ _ _ F2). unfold decimal_value, PyUnicode.digits_value in *.
    rewrite <- (fold_transfer _ _ Fd). exact Hsp.
  - intros (ws1 & sg & raw & ds & ws2 & -> & Hw1 & Hw2 & Hug & Hex & Hsp).
    apply Forall2_app_inv_l in HF as (ws1a & s1 & F1 & HF & ->).
    apply Forall2_app_inv_l in HF as (sga & s2 & F2 & HF & ->).
    apply Forall2_app_inv_l in HF as (rawa & ws2a & F3 & F4 & ->).
    destruct (groups_of_code raw ds Hug rawa F3) as (dsa & Hg & Fd).
    exists ws1a, sga, rawa, dsa, ws2a. split; [reflexivity|].
    split; [apply (spaces_transfer _ _ F1), Hw1|].
    split; [apply (spaces_transfer _ _ F4), Hw2|].
    split; [exact Hg|]. split; [rewrite <- (Forall2_length Fd); exact Hex|].
    apply (sign_transfer _ _ _ _ F2). unfold decimal_value, PyUnicode.digits_value in *.
    rewrite (fold_transfer _ _ Fd). exact Hsp.
Qed.

Lemma digit_groups_in (raw ds : list ascii) :
  digit_groups raw ds -> forall x, In x raw -> PyInt.is_digit x = true \/ x = "_"%char.
Proof.
  induction 1 as [c Hc|c raw ds Hc _ IH|c raw ds Hc _ IH]; intros x Hx; cbn [In] in Hx.
  - destruct Hx as [<-|[]]. left. exact Hc.
  - destruct Hx as [<-|Hx]; [left; exact Hc|apply IH, Hx].
  - destruct Hx as [<-|[<-|Hx]]; [left; exact Hc|right; reflexivity|apply IH, Hx].
Qed.

Lemma udigit_groups_in (raw ds : list Z) :
  PyUnicode.udigit_groups isp dec raw ds -> forall x, In x raw ->
  (exists d, PyUnicode.udigit isp dec x d) \/ x = 95.
Proof.
  induction 1 as [c d Hc|c d raw ds Hc _ IH|c d raw ds Hc _ IH]; intros x Hx; cbn [In] in Hx.
  - destruct Hx as [<-|[]]. left. exists d. exact Hc.
  - destruct Hx as [<-|Hx]; [left; exists d; exact Hc|apply IH, Hx].
  - destruct Hx as [<-|[<-|Hx]]; [left; exists d; exact Hc|right; reflexivity|apply IH, Hx].
Qed.

(** No literal contains the '?' of an unmapped character. *)
Lemma literal_no_question_mark (lim : Z) (a : list ascii) (n : Z) :
  py_int_literal lim (string_of_list_ascii a) n -> ~ In "?"%char a.
Proof.
  intros (ws1 & sg & raw & ds & ws2 & Hl & Hw1 & Hw2 & Hg & _ & Hsp) Hin.
  rewrite list_ascii_of_string_of_list_ascii in Hl. subst a.
  rewrite !in_app_iff in Hin.
  destruct Hin as [Hin|[Hin|[Hin|Hin]]].
  - rewrite forallb_forall in Hw1. specialize (Hw1 _ Hin). discriminate Hw1.
  - destruct Hsp as [[-> _]|[[-> _]|[-> _]]]; cbn in Hin; intuition discriminate.
  - destruct (digit_groups_in raw ds Hg _ Hin) as [H|H]; discriminate H.
  - rewrite forallb_forall in Hw2. specialize (Hw2 _ Hin). discriminate Hw2.
Qed.

(** Every character of a literal is kept or mapped by the rewriting. *)
Lemma literal_mapped (lim : Z) (s : list Z) (n : Z) :
  PyUnicode.int_literal isp dec lim s n -> forallb (PyUnicode.mapped isp dec) s = true.
Proof.
  intros (ws1 & sg & raw & ds & ws2 & -> & Hw1 & Hw2 & Hg & _ & Hsp).
  apply forallb_forall. intros x Hin. rewrite !in_app_iff in Hin.
  destruct Hin as [Hin|[Hin|[Hin|Hin]]].
  - rewrite Forall_forall in Hw1. apply mapped_uspace, Hw1, Hin.
  - apply mapped_low.
    destruct Hsp as [[-> _]|[[-> _]|[-> _]]]; cbn in Hin; intuition lia.
  - destruct (udigit_groups_in raw ds Hg _ Hin) as [[d Hd]|Hx];
      [apply (mapped_udigit _ _ Hd)|subst x; apply mapped_low; lia].
  - rewrite Forall_forall in Hw2. apply mapped_uspace, Hw2, Hin.
Qed.

(** [int(s, 10)] on a [str] returns [n] exactly on the literals of [n]. *)
Lemma int_literal_iff (lim : Z) (s : list Z) (n : Z) :
  PyUnicode.int_base10 isp dec lim s = Normal n <-> PyUnicode.int_literal isp dec lim s n.
Proof.
  unfold PyUnicode.int_base10, PyUnicode.transform.
  assert (Hgen : forall a, Forall2 cls s a ->
            (PyInt.int_base10 lim (string_of_list_ascii a) = Normal n <->
             PyUnicode.int_literal isp dec lim s n)).
  { intros a HF. rewrite <- (literal_transfer lim s a n HF).
    split; [apply literal_of_int_base10|apply int_base10_of_literal]. }
  destruct (forallb (fun c => c <? 128) s) eqn:Ha; [apply Hgen, same_class_ascii, Ha|].
  destruct (forallb (PyUnicode.mapped isp dec) s) eqn:Hm;
    [apply Hgen, same_class_transform_chars, Hm|].
  destruct (transform_chars_unmapped s Hm) as (pre & c & rest & Hs & Hc & ->).
  split; intros H; exfalso.
  - apply literal_of_int_base10, literal_no_question_mark in H.
    apply H, in_or_app. right. left. reflexivity.
  - apply literal_mapped in H. rewrite Hs, forallb_app in H. cbn [forallb] in H.
    rewrite Hc, andb_false_r in H. discriminate H.
Qed.


(** On strings of U+0000..U+00FF the handler's parse is [int] on the code
    points, for a database that has the Latin-1 facts (U+0085 and U+00A0 are
    the spaces of U+007F..U+00FF, none of them is a decimal digit). *)
Lemma handler_parse_agrees
    (Hlatin : forall c, 127 <= c <= 255 ->
              isp c = ((c =? 133) || (c =? 160)) /\ dec c = None)
    (lim : Z) (s : string) (n : Z) :
  PyInt.int_base10 lim s = Normal n <->
  PyUnicode.int_base10 isp dec lim (PyUnicode.codes s) = Normal n.
Proof.
  rewrite int_literal_iff.
  assert (HF : Forall2 cls (PyUnicode.codes s) (list_ascii_of_string s)).
  { unfold PyUnicode.codes. induction (list_ascii_of_string s) as [|a l IH]; [constructor|].
    cbn [map]. constructor; [|exact IH].
    pose proof (nat_ascii_bounded a) as Hb.
    replace a with (PyUnicode.ascii_of_code (Z.of_nat (nat_of_ascii a))) at 2
      by (unfold PyUnicode.ascii_of_code; rewrite Nat2Z.id; apply ascii_nat_embedding).
    apply same_class_nat; [lia|].
    destruct (Z.ltb_spec (Z.of_nat (nat_of_ascii a)) 127) as [Hl|Hl]; [left; exact Hl|].
    right. split; [exact Hl|]. apply Hlatin. lia. }
  rewrite <- (literal_transfer lim _ _ n HF), string_of_list_ascii_of_string.
  split; [apply literal_of_int_base10|apply int_base10_of_literal].
Qed.

End Db.
End PyUnicodeFacts.

(** C7, counterexample: [int("1_0", 10)] is 10, but "1_0" is not an
    optional sign followed by decimal digits. *)
Lemma int_str_signed_decimal_counterexample :
  PyUnicode.int_base10 sample_isspace sample_todecimal default_max_str_digits [49; 95; 48] = Normal 10 /\
  ~ (forall (s : list Z) (n : Z),
       PyUnicode.int_base10 sample_isspace sample_todecimal default_max_str_digits s = Normal n ->
       PyUnicode.signed_decimal sample_isspace sample_todecimal s n).
Proof.
  split; [reflexivity|].
  intros H. destruct (H [49; 95; 48] 10 eq_refl) as (sg & raw & ds & Hs & _ & F & Hsp).
  destruct Hsp as [[-> _]|[[-> _]|[-> _]]]; cbn [app] in Hs; try discriminate Hs.
  subst raw.
  destruct (PyUnicodeFacts.f2_cons_l _ _ _ _ F) as [d1 [l1 [_ [_ F1]]]].
  destruct (PyUnicodeFacts.f2_cons_l _ _ _ _ F1) as [d2 [l2 [_ [Hu _]]]].
  destruct Hu as [Hu|Hu]; lia.
Qed.

(** C7 (amended): [int(num, 10)] raises a TypeError when the parameter is
    missing.  On a [str] it returns [n] exactly when the string is
    whitespace, an optional '+' or '-', decimal digits (ASCII digits or
    characters with a decimal value in the Unicode database) with single
    underscores allowed between two digits, and whitespace, with at most
    [lim] digits when the limit is on, and [n] is the signed value of the
    digits; on every other string it raises a ValueError.  Either exception
    takes the handler's failure path. *)
Theorem int_str_literal (u_isspace : Z -> bool) (u_todecimal : Z -> option Z)
    (Hdec : forall c d, u_todecimal c = Some d -> 0 <= d <= 9)
    (H127 : u_isspace 127 = false /\ u_todecimal 127 = None) (lim : Z) :
  PyUnicode.int_arg u_isspace u_todecimal lim None = Raised TypeError_int_non_string /\
  (forall s n, PyUnicode.int_arg u_isspace u_todecimal lim (Some s) = Normal n <->
               PyUnicode.int_literal u_isspace u_todecimal lim s n) /\
  (forall s, (forall n, ~ PyUnicode.int_literal u_isspace u_todecimal lim s n) ->
             exists e, PyUnicode.int_arg u_isspace u_todecimal lim (Some s) = Raised e /\
                       is_value_error e).
Proof.
  split; [reflexivity|]. split.
  - intros s n. apply PyUnicodeFacts.int_literal_iff; assumption.
  - intros s Hn. cbn [PyUnicode.int_arg].
    destruct (PyUnicode.int_base10 u_isspace u_todecimal lim s) as [n|e] eqn:E.
    + exfalso. apply (Hn n). apply PyUnicodeFacts.int_literal_iff; assumption.
    + exists e. split; [reflexivity|]. exact (PyUnicodeFacts.int_base10_raised _ _ _ E).
Qed.

(** [int(s, 10)] ignores surrounding whitespace: if [s] parses to [n], so
    does [s] with whitespace (tab, LF, VT, FF, CR, space, or a Unicode space
    of the database) added before and after it. *)
Theorem int_str_whitespace_padding (u_isspace : Z -> bool) (u_todecimal : Z -> option Z)
    (Hdec : forall c d, u_todecimal c = Some d -> 0 <= d <= 9)
    (H127 : u_isspace 127 = false /\ u_todecimal 127 = None)
    (lim : Z) (ws1 s ws2 : list Z) (n : Z) :
  Forall (PyUnicode.uspace u_isspace) ws1 ->
  Forall (PyUnicode.uspace u_isspace) ws2 ->
  PyUnicode.int_base10 u_isspace u_todecimal lim s = Normal n ->
  PyUnicode.int_base10 u_isspace u_todecimal lim (ws1 ++ s ++ ws2) = Normal n.
Proof.
  intros H1 H2 Hs. apply PyUnicodeFacts.int_literal_iff; [assumption|assumption|].
  apply PyUnicodeFacts.int_literal_iff in Hs; [|assumption|assumption].
  destruct Hs as (v1 & sg & raw & ds & v2 & -> & Hv1 & Hv2 & Hg & Hex & Hsp).
  exists (ws1 ++ v1), sg, raw, ds, (v2 ++ ws2).
  split; [rewrite !app_assoc; reflexivity|].
  split; [apply Forall_app; split; assumption|].
  split; [apply Forall_app; split; assumption|].
  auto.
Qed.

(** Prefixing a '-' to a string that starts with a decimal digit (ASCII or
    Unicode) and parses to [n] makes it parse to [- n]. *)
Theorem int_str_minus (u_isspace : Z -> bool) (u_todecimal : Z -> option Z)
    (Hdec : forall c d, u_todecimal c = Some d -> 0 <= d <= 9)
    (H127 : u_isspace 127 = false /\ u_todecimal 127 = None)
    (lim c d : Z) (s : list Z) (n : Z) :
  PyUnicode.udigit u_isspace u_todecimal c d ->
  PyUnicode.int_base10 u_isspace u_todecimal lim (c :: s) = Normal n ->
  PyUnicode.int_base10 u_isspace u_todecimal lim (45 :: c :: s) = Normal (- n).
Proof.
  intros Hc Hs. apply PyUnicodeFacts.int_literal_iff; [assumption|assumption|].
  apply PyUnicodeFacts.int_literal_iff in Hs; [|assumption|assumption].
  destruct Hs as (v1 & sg & raw & ds & v2 & Hl & Hv1 & Hv2 & Hg & Hex & Hsp).
  assert (v1 = []) as ->.
  { destruct v1 as [|w v1]; [reflexivity|]. exfalso.
    injection Hl as <- _. inversion Hv1 as [|? ? Hw _]; subst.
    destruct Hw as [Hw|[Hw Hi]]; destruct Hc as [Hc|[Hc [Hi' _]]]; try lia.
    rewrite Hi in Hi'. discriminate Hi'. }
  assert (sg = [] /\ n = PyUnicode.digits_value ds) as [-> ->].
  { destruct Hsp as [[-> ->]|[[-> _]|[-> _]]]; [split; reflexivity| |];
      exfalso; injection Hl as Hw _; subst c; destruct Hc as [Hc|[Hc _]]; lia. }
  exists [], [45], raw, ds, v2.
  split; [cbn [app] in *; rewrite Hl; reflexivity|].
  split; [constructor|]. split; [exact Hv2|]. split; [exact Hg|]. split; [exact Hex|].
  right. right. split; reflexivity.
Qed.

Section StrWitnesses.

Lemma sample_todecimal_range (c d : Z) : sample_todecimal c = Some d -> 0 <= d <= 9.
Proof.
  unfold sample_todecimal. intros H.
  repeat match type of H with
         | context [if ?b then _ else _] => let E := fresh "E" in destruct b eqn:E
         end;
    try discriminate H; injection H as <-;
    rewrite ?andb_true_iff, ?Z.leb_le in *; lia.
Qed.

Lemma int_str_literal_witness :
  (forall c d, sample_todecimal c = Some d -> 0 <= d <= 9) /\
  (sample_isspace 127 = false /\ sample_todecimal 127 = None) /\
  PyUnicode.int_base10 sample_isspace sample_todecimal default_max_str_digits
    [12288; 1635; 95; 48; 32] = Normal 30 /\
  PyUnicode.int_literal sample_isspace sample_todecimal default_max_str_digits
    [12288; 1635; 95; 48; 32] 30.
Proof.
  split; [exact sample_todecimal_range|].
  split; [split; reflexivity|].
  split; [reflexivity|].
  apply (proj1 (proj1 (proj2 (int_str_literal sample_isspace sample_todecimal
                                 sample_todecimal_range (conj eq_refl eq_refl)
                                 default_max_str_digits)) _ _)).
  reflexivity.
Defined.

Lemma int_str_whitespace_padding_witness :
  Forall (PyUnicode.uspace sample_isspace) [12288] /\
  Forall (PyUnicode.uspace sample_isspace) [160; 9] /\
  PyUnicode.int_base10 sample_isspace sample_todecimal default_max_str_digits [45; 49; 95; 50] = Normal (-12) /\
  PyUnicode.int_base10 sample_isspace sample_todecimal default_max_str_digits
    ([12288] ++ [45; 49; 95; 50] ++ [160; 9]) = Normal (-12).
Proof.
  assert (H1 : Forall (PyUnicode.uspace sample_isspace) [12288]).
  { constructor; [right; split; [lia|reflexivity]|constructor]. }
  assert (H2 : Forall (PyUnicode.uspace sample_isspace) [160; 9]).
  { constructor; [right; split; [lia|reflexivity]|].
    constructor; [left; left; lia|constructor]. }
  split; [exact H1|]. split; [exact H2|]. split; [reflexivity|].
  apply (int_str_whitespace_padding sample_isspace sample_todecimal
           sample_todecimal_range (conj eq_refl eq_refl) default_max_str_digits
           [12288] [45; 49; 95; 50] [160; 9] (-12) H1 H2).
  reflexivity.
Defined.

Lemma int_str_minus_witness :
  PyUnicode.udigit sample_isspace sample_todecimal 1637 5 /\
  PyUnicode.int_base10 sample_isspace sample_todecimal default_max_str_digits [1637; 50] = Normal 52 /\
  PyUnicode.int_base10 sample_isspace sample_todecimal default_max_str_digits [45; 1637; 50] = Normal (- 52).
Proof.
  assert (Hc : PyUnicode.udigit sample_isspace sample_todecimal 1637 5).
  { right. split; [lia|]. split; reflexivity. }
  split; [exact Hc|]. split; [reflexivity|].
  apply (int_str_minus sample_isspace sample_todecimal sample_todecimal_range
           (conj eq_refl eq_refl) default_max_str_digits 1637 5 [50] 52 Hc).
  reflexivity.
Defined.

End StrWitnesses.

Section ExtraWitnesses.

Local Open Scope string_scope.

Lemma get_prints_exactly_on_none_witness :
  run (get default_max_str_digits (Some "x")) [] =
    Some (Normal None, mk_state [] [EvPrint (ValueError_invalid_literal "x")]) /\
  ((Normal None = @Normal (option response) None /\
    exists e, prints [EvPrint (ValueError_invalid_literal "x")] = [e]) \/
   (exists resp, @Normal (option response) None = Normal (Some resp) /\
    prints [EvPrint (ValueError_invalid_literal "x")] = [])).
Proof.
  split; [reflexivity|].
  apply (get_prints_exactly_on_none default_max_str_digits (Some "x") []
           (Normal None) (mk_state [] [EvPrint (ValueError_invalid_literal "x")])).
  reflexivity.
Defined.

Lemma get_consumes_two_draws_witness :
  run (get default_max_str_digits (Some "4")) [120; 7; 42] =
    Some (Normal (Some (json_response (success_payload 16 270))), mk_state [42] (draws_trace 120 7)) /\
  exists r1 r2, [120; 7; 42] = r1 :: r2 :: [42].
Proof.
  split; [reflexivity|].
  apply (get_consumes_two_draws default_max_str_digits (Some "4") [120; 7; 42]
           (Normal (Some (json_response (success_payload 16 270)))) (mk_state [42] (draws_trace 120 7))).
  reflexivity.
Defined.

Lemma get_sleep_bounds_witness :
  run (get default_max_str_digits (Some "4")) [200; 0] =
    Some (Normal (Some (json_response error_payload)), mk_state [] (draws_trace 200 0)) /\
  exists q, sleeps (draws_trace 200 0) = [q] /\ (1 # 10 <= q <= 1 # 4)%Q.
Proof.
  split; [reflexivity|].
  apply (get_sleep_bounds default_max_str_digits (Some "4") [200; 0]
           (Normal (Some (json_response error_payload))) (mk_state [] (draws_trace 200 0))).
  reflexivity.
Defined.

Lemma get_same_square_same_run_witness :
  PyInt.int_arg default_max_str_digits (Some "-5") = Normal (-5) /\
  PyInt.int_arg default_max_str_digits (Some " +0_5") = Normal 5 /\
  -5 * -5 = 5 * 5 /\
  run (get default_max_str_digits (Some "-5")) [90; 4] =
  run (get default_max_str_digits (Some " +0_5")) [90; 4].
Proof.
  split; [reflexivity|]. split; [reflexivity|]. split; [reflexivity|].
  apply (get_same_square_same_run default_max_str_digits (Some "-5") (Some " +0_5") (-5) 5 [90; 4]);
    reflexivity.
Defined.

Lemma int_base10_magnitude_witness :
  0 < default_max_str_digits /\
  PyInt.int_base10 default_max_str_digits "-987" = Normal (-987) /\
  Z.abs (-987) < 10 ^ default_max_str_digits.
Proof.
  split; [unfold default_max_str_digits; lia|]. split; [reflexivity|].
  apply (int_base10_magnitude default_max_str_digits "-987" (-987));
    [unfold default_max_str_digits; lia | reflexivity].
Defined.

End ExtraWitnesses.
